(** * nautobot_jobs: the SSoT example jobs and the show-version collector

    A shallow embedding of the three job modules of the repository
    ([jobs/example_ssot_data_target.py], [jobs/example_ssot.py] and
    [jobs/get_version.py]) and the properties of them that the
    specification states.

    Python objects are modelled by [value]; a [dict] with string keys is a
    [gmap string value].  A Python function that can raise is a function
    into [result]; one that also talks to the outside (the remote HTTP
    system, the database, a device) threads the state it touches.

    The libraries the jobs are built on (diffsync, nautobot_ssot, requests,
    pynetbox, netmiko, the Django ORM) are not part of the repository.
    What the repository's code asks of them is modelled at the call:
    a request goes to an arbitrary server, a base-class method and the
    conversions of the model validation are parameters, a database table
    is a list of rows.  The framework's own side of a sync (the snapshot's
    [add], the local-store adapter, the diff) is modelled from the
    specification where a property needs it, and marked so.  Text written
    with [print] is not kept; the job logger's lines are. *)

From Stdlib Require Import ZArith Ascii String List.
From stdpp Require Import gmap strings list fin_maps.

Open Scope string_scope.
Open Scope list_scope.
Open Scope Z_scope.

(** ** Python values and exceptions *)

#[warnings="-register-all"]
Inductive value : Type :=
  | VNone
  | VBool (b : bool)
  | VInt (z : Z)
  | VStr (s : string)
  | VList (l : list value)
  | VDict (d : gmap string value).

Inductive exn : Type :=
  | KeyError (k : string)
  | TypeError
  | AttributeError
  | ValidationError (field : string)
  | JSONDecodeError
  | HTTPError (status : Z)
  | Timeout
  | ConnectionError
  | ObjectAlreadyExists
  | DoesNotExist
  | MultipleObjectsReturned
  | Exception (msg : string).

Inductive result (A : Type) : Type :=
  | Ok (a : A)
  | Raise (e : exn).
Arguments Ok {A} a.
Arguments Raise {A} e.

(** [True] of the exception that [raise_for_status] raises, and of no other. *)
Definition is_http_error (e : exn) : bool :=
  match e with HTTPError _ => true | _ => false end.

(** The state-and-exception monad: a raised exception keeps the state
    reached so far, as a Python exception keeps the mutations already made. *)
Definition M (St A : Type) : Type := St -> result A * St.

Definition ret {St A} (a : A) : M St A := fun st => (Ok a, st).
Definition raise {St A} (e : exn) : M St A := fun st => (Raise e, st).
Definition bind {St A B} (m : M St A) (k : A -> M St B) : M St B :=
  fun st => match m st with
            | (Ok a, st') => k a st'
            | (Raise e, st') => (Raise e, st')
            end.
Definition lift {St A} (r : result A) : M St A := fun st => (r, st).

Notation "x <~ m ;; k" := (bind m (fun x => k))
  (at level 100, m at next level, right associativity).
Notation "m ;;; k" := (bind m (fun _ => k))
  (at level 100, right associativity).

(** [for x in xs: body(x)] *)
Fixpoint for_each {St A} (body : A -> M St unit) (xs : list A) : M St unit :=
  match xs with
  | [] => ret tt
  | x :: xs' => body x ;;; for_each body xs'
  end.

(** Bind on plain results, for code that raises but touches no state. *)
Definition rbind {A B} (r : result A) (k : A -> result B) : result B :=
  match r with Ok a => k a | Raise e => Raise e end.
Notation "x <~r r ;; k" := (rbind r (fun x => k))
  (at level 100, r at next level, right associativity).

(** [bool(v)] *)
Definition truthy (v : value) : bool :=
  match v with
  | VNone => false
  | VBool b => b
  | VInt z => negb (Z.eqb z 0)
  | VStr s => negb (String.eqb s "")
  | VList l => match l with [] => false | _ => true end
  | VDict d => match map_to_list d with [] => false | _ => true end
  end.

(** [v[k]] for a string [k] *)
Definition subscript (v : value) (k : string) : result value :=
  match v with
  | VDict d => match d !! k with Some x => Ok x | None => Raise (KeyError k) end
  | _ => Raise TypeError
  end.

(** [v.get(k)] *)
Definition dict_get (v : value) (k : string) : result value :=
  match v with
  | VDict d => Ok (default VNone (d !! k))
  | _ => Raise AttributeError
  end.

(** [d[k]] and [d.get(k, None)] on a dict proper *)
Definition getitem (d : gmap string value) (k : string) : result value :=
  match d !! k with Some x => Ok x | None => Raise (KeyError k) end.
Definition get_or_none (d : gmap string value) (k : string) : value :=
  default VNone (d !! k).

(** [iter(v)], as the [for] statement takes it *)
Definition iterate (v : value) : result (list value) :=
  match v with
  | VList l => Ok l
  | VDict d => Ok (VStr <$> (map_to_list d).*1)
  | VStr s => Ok ((fun c => VStr (String c "")) <$> list_ascii_of_string s)
  | _ => Raise TypeError
  end.

(** [s.lower()] on ASCII text *)
Definition lower_ascii (c : ascii) : ascii :=
  let n := nat_of_ascii c in
  if ((65 <=? n) && (n <=? 90))%nat then ascii_of_nat (n + 32) else c.

Fixpoint lower (s : string) : string :=
  match s with
  | EmptyString => EmptyString
  | String c s' => String (lower_ascii c) (lower s')
  end.

(** [v.lower()]: only [str] has the method *)
Definition str_lower (v : value) : result value :=
  match v with
  | VStr s => Ok (VStr (lower s))
  | _ => Raise AttributeError
  end.

(** The field annotations [int], [str] and [Optional[str]] as the
    model constructor checks them.  A value that is of the annotated type
    is taken as it is.  What the validation library makes of a value of
    another type is not in the repository (it converts some: the text
    ["10"] or [True] given for an [int] field) and is a parameter:
    [convert_int v] is the integer that [v] is converted to, if it is
    converted, and [convert_str v] the text; a value that is not converted
    fails the validation of its field. *)
Class Validation : Type := {
  convert_int : value -> option Z;
  convert_str : value -> option string
}.

Definition as_int {V : Validation} (field : string) (v : value) : result Z :=
  match v with
  | VInt z => Ok z
  | _ => match convert_int v with
         | Some z => Ok z
         | None => Raise (ValidationError field)
         end
  end.

Definition as_str {V : Validation} (field : string) (v : value) : result string :=
  match v with
  | VStr s => Ok s
  | _ => match convert_str v with
         | Some s => Ok s
         | None => Raise (ValidationError field)
         end
  end.

Definition as_optional_str {V : Validation} (field : string) (v : value)
  : result (option string) :=
  match v with
  | VNone => Ok None
  | VStr s => Ok (Some s)
  | _ => match convert_str v with
         | Some s => Ok (Some s)
         | None => Raise (ValidationError field)
         end
  end.

(** Two validations for worked examples: one that converts nothing, and
    one that takes a [bool] given for an [int] field as 0 or 1. *)
Definition strict : Validation :=
  {| convert_int := fun _ => None; convert_str := fun _ => None |}.

Definition lenient : Validation :=
  {| convert_int := fun v => match v with
                             | VBool b => Some (if b then 1 else 0)
                             | _ => None
                             end;
     convert_str := fun _ => None |}.

(** * [jobs/example_ssot_data_target.py]: Nautobot to remote NetBox *)

Module ExampleSsotDataTarget.

(** ** The wire: what [requests] sends and what comes back *)

Inductive http_method : Type := GET | POST | PATCH | DELETE.

(** One call of [requests.get/post/patch/delete] with its keyword
    arguments; [rq_timeout = None] is a call without [timeout=]. *)
Record request : Type := {
  rq_method : http_method;
  rq_url : string;
  rq_headers : gmap string string;
  rq_json : option value;
  rq_timeout : option Z;
  rq_verify : bool
}.

(** [content] is the body as [response.json()] decodes it, [None] when the
    body is not JSON. *)
Record response : Type := {
  status_code : Z;
  content : option value
}.

(** A call either yields a response or raises inside [requests] (a
    [Timeout], a [ConnectionError]). *)
Inductive reply : Type :=
  | Answer (r : response)
  | NoAnswer (e : exn).

(** ** Step 1: [VLANModel] *)

Record VLANModel : Type := {
  pk : option string;
  vid : Z;
  name : string;
  status__name : string;
  vlan_group__name : option string;
  description : option string
}.

(** The defaults the class body gives its optional fields. *)
Definition default_vlan_group__name : option string := None.
Definition default_description : option string := None.

Definition _identifiers : list string := ["vid"; "name"; "vlan_group__name"].
Definition _attributes : list string := ["description"; "status__name"].

(** The identity key: the values of [_identifiers], in order. *)
Definition key : Type := Z * string * option string.
Definition get_key (v : VLANModel) : key := (vid v, name v, vlan_group__name v).

(** [self.vlan(vid=.., name=.., status__name=.., vlan_group__name=..,
    description=..)]: no [pk] is passed, so it keeps its default. *)
Definition vlan {V : Validation}
    (a_vid a_name a_status a_group a_description : value) : result VLANModel :=
  v <~r as_int "vid" a_vid ;;
  n <~r as_str "name" a_name ;;
  s <~r as_str "status__name" a_status ;;
  g <~r as_optional_str "vlan_group__name" a_group ;;
  d <~r as_optional_str "description" a_description ;;
  Ok {| pk := None; vid := v; name := n; status__name := s;
        vlan_group__name := g; description := d |}.

(** ** Step 3.2: [MySSoTRemoteAdapter] *)

Record MySSoTRemoteAdapter : Type := {
  url : string;
  token : string;
  headers : gmap string string
}.

(** [__init__(self, *args, url, token, job, **kwargs)] *)
Definition __init__ (a_url a_token : string) : MySSoTRemoteAdapter :=
  {| url := a_url;
     token := a_token;
     headers := <["Authorization" := "Token " +:+ a_token]>
                (<["Accept" := "application/json"]> ∅) |}.

(** The call each method makes: [requests.get(self.url + "/api/ipam/vlans/",
    headers=self.headers, verify=False)] and, for the three writers,
    [requests.<verb>(f"{self.url}{path}", headers=self.headers, [json=data,]
    timeout=60, verify=False)]. *)
Definition get_request (self : MySSoTRemoteAdapter) : request :=
  {| rq_method := GET;
     rq_url := url self +:+ "/api/ipam/vlans/";
     rq_headers := headers self;
     rq_json := None;
     rq_timeout := None;
     rq_verify := false |}.

Definition post_request (self : MySSoTRemoteAdapter) (path : string) (data : value)
  : request :=
  {| rq_method := POST;
     rq_url := url self +:+ path;
     rq_headers := headers self;
     rq_json := Some data;
     rq_timeout := Some 60;
     rq_verify := false |}.

Definition patch_request (self : MySSoTRemoteAdapter) (path : string) (data : value)
  : request :=
  {| rq_method := PATCH;
     rq_url := url self +:+ path;
     rq_headers := headers self;
     rq_json := Some data;
     rq_timeout := Some 60;
     rq_verify := false |}.

Definition delete_request (self : MySSoTRemoteAdapter) (path : string) : request :=
  {| rq_method := DELETE;
     rq_url := url self +:+ path;
     rq_headers := headers self;
     rq_json := None;
     rq_timeout := Some 60;
     rq_verify := false |}.

(** [response.raise_for_status()] *)
Definition raise_for_status (r : response) : result unit :=
  if (400 <=? status_code r) && (status_code r <? 600)
  then Raise (HTTPError (status_code r))
  else Ok tt.

(** [response.json()] *)
Definition json (r : response) : result value :=
  match content r with Some v => Ok v | None => Raise JSONDecodeError end.

(** [/api/ipam/vlans/{self.pk}/] *)
Definition pk_str (p : option string) : string :=
  match p with Some s => s | None => "None" end.
Definition vlan_path (p : option string) : string :=
  "/api/ipam/vlans/" +:+ pk_str p +:+ "/".

(** [update] builds its body from the two attribute names it knows. *)
Definition update_data (attrs : gmap string value) : gmap string value :=
  let data : gmap string value := ∅ in
  let data := match attrs !! "description" with
              | Some v => <["description" := v]> data
              | None => data
              end in
  match attrs !! "status__name" with
  | Some v => <["status" := v]> data
  | None => data
  end.

(** The dict literal of [create], its entries evaluated in order. *)
Definition create_data (ids attrs : gmap string value)
  : result (gmap string value) :=
  v <~r getitem ids "vid" ;;
  n <~r getitem ids "name" ;;
  s0 <~r getitem attrs "status__name" ;;
  s <~r str_lower s0 ;;
  let g := get_or_none attrs "vlan_group__name" in
  d <~r getitem attrs "description" ;;
  Ok (list_to_map [("vid", v); ("name", n); ("status", s);
                   ("group__name", g); ("description", d)]).

(** The keyword arguments of the constructor call in [load], evaluated in
    order; the conditional expression tests [item.get("group")] first. *)
Definition load_item {V : Validation} (item : value) : result VLANModel :=
  v <~r subscript item "vid" ;;
  n <~r subscript item "name" ;;
  c <~r dict_get item "group" ;;
  g <~r (if truthy c
         then (grp <~r subscript item "group" ;; subscript grp "name")
         else Ok VNone) ;;
  d <~r subscript item "description" ;;
  vlan v n (VStr "active") g d.

Section Remote.

(** The remote system is any state machine answering requests. *)
Context {server : Type}.
Variable serve : server -> request -> reply * server.

(** The methods of the base class [NautobotModel] that the overrides
    end with; they are outside the repository and do not use the wire. *)
Variable base_create : gmap string value -> gmap string value -> result VLANModel.
Variable base_update : VLANModel -> gmap string value -> result VLANModel.
Variable base_delete : VLANModel -> result VLANModel.

(** The validation the model constructor runs. *)
Context {V : Validation}.

(** The remote system, the requests sent to it so far (oldest first) and
    the adapter's snapshot. *)
Record state : Type := {
  remote : server;
  wire : list request;
  store : gmap key VLANModel
}.

(** One [requests] call: the request goes out, the remote moves on. *)
Definition send (rq : request) : M state response := fun st =>
  let '(rp, srv) := serve (remote st) rq in
  let st' := {| remote := srv; wire := wire st ++ [rq]; store := store st |} in
  match rp with
  | Answer r => (Ok r, st')
  | NoAnswer e => (Raise e, st')
  end.

(** The state once [rq] has gone out, and what the caller of a writer
    gets for the reply: the transport's exception, the [HTTPError] of
    [raise_for_status], or the response. *)
Definition delivered (rq : request) (st : state) : state :=
  {| remote := snd (serve (remote st) rq);
     wire := wire st ++ [rq];
     store := store st |}.

Definition outcome (rp : reply) : result response :=
  match rp with
  | NoAnswer e => Raise e
  | Answer r => _ <~r raise_for_status r ;; Ok r
  end.

Definition _get_api_data (self : MySSoTRemoteAdapter) : M state value :=
  r <~ send (get_request self) ;;
  data <~ lift (json r) ;;
  lift (subscript data "results").

(** Modelled from the spec: [add] of the [DiffSync] base class, which
    the repository inherits: it fails when the snapshot already holds a
    record with the same identity key. *)
Definition add (obj : VLANModel) : M state unit := fun st =>
  match store st !! get_key obj with
  | Some _ => (Raise ObjectAlreadyExists, st)
  | None => (Ok tt, {| remote := remote st; wire := wire st;
                       store := <[get_key obj := obj]> (store st) |})
  end.

Definition load_one (item : value) : M state unit :=
  loaded_vlan <~ lift (load_item item) ;;
  add loaded_vlan.

Definition load (self : MySSoTRemoteAdapter) : M state unit :=
  result_data <~ _get_api_data self ;;
  items <~ lift (iterate result_data) ;;
  for_each load_one items.

(** [post] catches the [HTTPError], prints and re-raises it. *)
Definition post (self : MySSoTRemoteAdapter) (path : string) (data : value)
  : M state response :=
  r <~ send (post_request self path data) ;;
  match raise_for_status r with
  | Raise e => raise e
  | Ok _ => ret r
  end.

Definition patch (self : MySSoTRemoteAdapter) (path : string) (data : value)
  : M state response :=
  r <~ send (patch_request self path data) ;;
  lift (raise_for_status r) ;;;
  ret r.

Definition delete (self : MySSoTRemoteAdapter) (path : string)
  : M state response :=
  r <~ send (delete_request self path) ;;
  lift (raise_for_status r) ;;;
  ret r.

(** *** Step 3.1: [VLANRemoteModel] *)

Definition VLANRemoteModel_create (diffsync : MySSoTRemoteAdapter)
    (ids attrs : gmap string value) : M state VLANModel :=
  data <~ lift (create_data ids attrs) ;;
  post diffsync "/api/ipam/vlans/" (VDict data) ;;;
  lift (base_create ids attrs).

Definition VLANRemoteModel_update (diffsync : MySSoTRemoteAdapter)
    (self : VLANModel) (attrs : gmap string value) : M state VLANModel :=
  patch diffsync (vlan_path (pk self)) (VDict (update_data attrs)) ;;;
  lift (base_update self attrs).

Definition VLANRemoteModel_delete (diffsync : MySSoTRemoteAdapter)
    (self : VLANModel) : M state VLANModel :=
  delete diffsync (vlan_path (pk self)) ;;;
  lift (base_delete self).

End Remote.

Arguments state : clear implicits.

(** ** Concrete remotes and base classes, for worked examples *)

(** The job's form defaults: [target_url] and [target_token]. *)
Definition target_url : string := "https://10.1.1.1".
Definition target_token : string := "aaaaaaaaaaaaaaaaaaaaaaaaaaaaaaaaaaaaaaaa".
Definition target_adapter : MySSoTRemoteAdapter := __init__ target_url target_token.

(** The defaults of [DiffSyncModel]: [create] builds the object from the
    identifiers and attributes, [update] sets the attributes, [delete]
    returns the object. *)
Definition plain_create {V : Validation} (ids attrs : gmap string value)
  : result VLANModel :=
  v <~r getitem ids "vid" ;;
  n <~r getitem ids "name" ;;
  s <~r getitem attrs "status__name" ;;
  vlan v n s (get_or_none ids "vlan_group__name") (get_or_none attrs "description").

Definition plain_update {V : Validation} (self : VLANModel)
    (attrs : gmap string value) : result VLANModel :=
  d <~r match attrs !! "description" with
        | Some v => as_optional_str "description" v
        | None => Ok (description self)
        end ;;
  s <~r match attrs !! "status__name" with
        | Some v => as_str "status__name" v
        | None => Ok (status__name self)
        end ;;
  Ok {| pk := pk self; vid := vid self; name := name self; status__name := s;
        vlan_group__name := vlan_group__name self; description := d |}.

Definition plain_delete (self : VLANModel) : result VLANModel := Ok self.

Definition item (a_id a_vid : Z) (a_name : string) (a_group : value) : value :=
  VDict (list_to_map [("id", VInt a_id); ("vid", VInt a_vid);
                      ("name", VStr a_name); ("status", VStr "reserved");
                      ("group", a_group); ("description", VStr "")]).

Definition page (next : value) (results : list value) : value :=
  VDict (list_to_map [("count", VInt 2); ("next", next);
                      ("previous", VNone); ("results", VList results)]).

Definition ok_json (v : value) : reply :=
  Answer {| status_code := 200; content := Some v |}.
Definition status_only (code : Z) : reply :=
  Answer {| status_code := code; content := None |}.

(** A remote holding two VLANs and serving them one per page. *)
Definition collection : list value :=
  [item 1 10 "users" VNone; item 2 20 "voice" VNone].
Definition page2_url : string := target_url +:+ "/api/ipam/vlans/?page=2".

Definition two_pages (s : unit) (rq : request) : reply * unit :=
  match rq_method rq with
  | GET =>
      if String.eqb (rq_url rq) (target_url +:+ "/api/ipam/vlans/")
      then (ok_json (page (VStr page2_url) (take 1 collection)), s)
      else if String.eqb (rq_url rq) page2_url
      then (ok_json (page VNone (drop 1 collection)), s)
      else (status_only 404, s)
  | _ => (status_only 405, s)
  end.


(** A remote that is unavailable for the first request it sees and
    healthy afterwards; its state counts the requests seen. *)
Definition unavailable_once (seen : nat) (rq : request) : reply * nat :=
  match seen with
  | O => (status_only 503, S seen)
  | _ => (status_only 200, S seen)
  end.

(** A remote that never answers in time. *)
Definition times_out (s : unit) (rq : request) : reply * unit :=
  (NoAnswer Timeout, s).

(** A remote that numbers what is posted to it: the state is the next
    internal id, returned in the created item. *)
Definition numbering (next_id : Z) (rq : request) : reply * Z :=
  match rq_method rq with
  | POST =>
      (Answer {| status_code := 201;
                 content := Some (VDict (<["id" := VInt next_id]>
                   (match rq_json rq with Some (VDict d) => d | _ => ∅ end))) |},
       next_id + 1)
  | _ => (status_only 200, next_id)
  end.

Definition fresh {server : Type} (srv : server) : state server :=
  {| remote := srv; wire := []; store := ∅ |}.

Definition vlan_a : VLANModel :=
  {| pk := Some "1"; vid := 10; name := "users"; status__name := "active";
     vlan_group__name := None; description := Some "" |}.
Definition vlan_b : VLANModel :=
  {| pk := Some "2"; vid := 20; name := "voice"; status__name := "active";
     vlan_group__name := None; description := Some "" |}.

Definition new_description (d : string) : gmap string value :=
  {[ "description" := VStr d ]}.

Definition ids30 : gmap string value :=
  list_to_map [("vid", VInt 30); ("name", VStr "lab"); ("vlan_group__name", VNone)].
Definition attrs30 : gmap string value :=
  list_to_map [("description", VStr "x"); ("status__name", VStr "Active")].

End ExampleSsotDataTarget.

(** * [jobs/example_ssot.py]: remote NetBox to Nautobot *)

Module ExampleSsot.

(** ** Step 1: [VLANModel] *)

Record VLANModel : Type := {
  vid : Z;
  group__name : option string;
  description : option string
}.

(** The defaults the class body gives its optional fields. *)
Definition default_group__name : option string := None.
Definition default_description : option string := None.

Definition _identifiers : list string := ["vid"; "group__name"].
Definition _attributes : list string := ["description"].

Definition key : Type := Z * option string.
Definition get_key (v : VLANModel) : key := (vid v, group__name v).

(** [self.vlan(vid=.., group__name=.., description=..)] *)
Definition vlan {V : Validation} (a_vid a_group a_description : value)
  : result VLANModel :=
  v <~r as_int "vid" a_vid ;;
  g <~r as_optional_str "group__name" a_group ;;
  d <~r as_optional_str "description" a_description ;;
  Ok {| vid := v; group__name := g; description := d |}.

(** ** What the API client hands out

    A VLAN as the client library presents it: attributes [vid] and
    [description], and [group], which is [None] or a nested record with a
    [name].  A nested record is a true value. *)
Record nb_group : Type := { group_name : value }.
Record nb_vlan : Type := {
  nb_vid : value;
  nb_group_of : option nb_group;
  nb_description : value
}.

(** The client object: [api(url=.., token=..)] with its session's
    [verify] switch. *)
Record api : Type := {
  api_url : string;
  api_token : string;
  http_session_verify : bool
}.

(** [api(url=url, token=token)]: the client library verifies
    certificates unless told otherwise. *)
Definition new_api (a_url a_token : string) : api :=
  {| api_url := a_url; api_token := a_token; http_session_verify := true |}.

(** [ExampleDataSource.init_api] *)
Definition init_api : api :=
  let url := "https://example.com" in
  let token := "aaaaaaaaaaaaaaaaaaaaaaaaaaaaaaaaaaaaaaaaa" in
  let netbox := new_api url token in
  {| api_url := api_url netbox; api_token := api_token netbox;
     http_session_verify := false |}.

(** ** Step 2.2: [MySSoTRemoteAdapter] *)

(** The loop body of [load] up to the constructor call. *)
Definition load_item {V : Validation} (v : nb_vlan) : result VLANModel :=
  let group_name := match nb_group_of v with
                    | Some g => ExampleSsot.group_name g
                    | None => VNone
                    end in
  vlan (nb_vid v) group_name (nb_description v).

(** Modelled from the spec: [add] of the [DiffSync] base class, failing
    on a second record with the same identity key. *)
Definition add (obj : VLANModel) : M (gmap key VLANModel) unit := fun store =>
  match store !! get_key obj with
  | Some _ => (Raise ObjectAlreadyExists, store)
  | None => (Ok tt, <[get_key obj := obj]> store)
  end.

(** [load]: [all_vlans] is what [self.api_client.ipam.vlans.all()] yields. *)
Definition load {V : Validation} (all_vlans : list nb_vlan)
  : M (gmap key VLANModel) unit :=
  for_each (fun v => loaded_vlan <~ lift (load_item v) ;; add loaded_vlan)
           all_vlans.

(** A VLAN as the client hands it out, for worked examples. *)
Definition nb (a_vid : Z) (a_group : option string) (a_description : value)
  : nb_vlan :=
  {| nb_vid := VInt a_vid;
     nb_group_of := (fun n => {| group_name := VStr n |}) <$> a_group;
     nb_description := a_description |}.

End ExampleSsot.

(** * What the framework supplies to a sync

    Each job syncs the snapshot its remote adapter loads with one that
    the framework's [NautobotAdapter] loads from the local store, and the
    framework classifies the differences.  Neither the local-store
    adapter nor the classification is under [src/]. *)

Module Framework.

(** Modelled from the spec: the categories of a ChangeSet (section 3),
    which the framework's diff engine assigns and which is missing
    here.  An update carries the names of the attribute fields whose
    values differ. *)
Inductive category : Type :=
  | Create
  | Delete
  | Update (fields : list string)
  | Unchanged.

Section Diff.

Context {K : Type} `{Countable K} {R : Type}.

(** The names of the declared attribute fields on which two records
    differ. *)
Variable differing : R -> R -> list string.

(** Modelled from the spec: the classification of section 4.3, the
    framework's and missing here.  A key only in the source is a create
    and a key only in the target a delete; a key in both is an update
    when the attribute mappings differ on at least one declared
    attribute field, and unchanged when they are equal on every one. *)
Definition classify (s t : option R) : option category :=
  match s, t with
  | Some _, None => Some Create
  | None, Some _ => Some Delete
  | Some a, Some b =>
      Some (match differing a b with
            | [] => Unchanged
            | fields => Update fields
            end)
  | None, None => None
  end.

(** Modelled from the spec: the ChangeSet of two snapshots (sections 3
    and 4.3), missing here with the diff engine: every identity key of
    either snapshot with its category. *)
Definition diff (source target : gmap K R) : gmap K category :=
  merge classify source target.

End Diff.

(** Modelled from the spec: a VLAN of the local store as far as the
    declared fields reach (section 4.2, the local-store adapter, which is
    the framework's and missing here).  A field named by a path
    through a related entity is that entity's own field: the status and
    the group are held by name, and a VLAN may have no group. *)
Record local_vlan : Type := {
  local_pk : option string;
  local_vid : Z;
  local_name : string;
  local_status : string;
  local_group : option string;
  local_description : option string
}.

Module DataTarget.
Import ExampleSsotDataTarget.

(** Modelled from the spec: the projection of a local VLAN into a
    record of the data-target job's model (sections 4.1 and 3), missing
    here as the local-store adapter is: an optional field for
    which the store has nothing resolves to the default that the model
    declares. *)
Definition project (r : local_vlan) : VLANModel :=
  {| pk := local_pk r;
     vid := local_vid r;
     name := local_name r;
     status__name := local_status r;
     vlan_group__name := match local_group r with
                         | Some g => Some g
                         | None => default_vlan_group__name
                         end;
     description := match local_description r with
                    | Some s => Some s
                    | None => default_description
                    end |}.

(** Modelled from the spec: the comparison of section 4.3, missing here
    with the diff engine: field by field over the attribute fields that
    the model declares in [_attributes]. *)
Definition same_attribute (field : string) (a b : VLANModel) : bool :=
  if String.eqb field "description"
  then bool_decide (description a = description b)
  else if String.eqb field "status__name"
  then bool_decide (status__name a = status__name b)
  else true.

Definition differing (a b : VLANModel) : list string :=
  filter (fun field => same_attribute field a b = false) _attributes.

End DataTarget.

Module DataSource.
Import ExampleSsot.

(** Modelled from the spec: the projection of a local VLAN into a
    record of the data-source job's model, as above. *)
Definition project (r : local_vlan) : VLANModel :=
  {| vid := local_vid r;
     group__name := match local_group r with
                    | Some g => Some g
                    | None => default_group__name
                    end;
     description := match local_description r with
                    | Some s => Some s
                    | None => default_description
                    end |}.

(** Modelled from the spec: the comparison of section 4.3, as above,
    over this model's [_attributes]. *)
Definition same_attribute (field : string) (a b : VLANModel) : bool :=
  if String.eqb field "description"
  then bool_decide (description a = description b)
  else true.

Definition differing (a b : VLANModel) : list string :=
  filter (fun field => same_attribute field a b = false) _attributes.

End DataSource.

End Framework.

(** * [jobs/get_version.py]: the show-version collector *)

Module GetVersion.

(** ** Text: the patterns and [re.search]

    Every entry of [patterns] is a literal followed by the group [(\S+)].
    [re_search lit s] is [re.search] for such a pattern with literal [lit]:
    the leftmost place where [lit] occurs with a non-blank character after
    it, and as [group(1)] the longest run of non-blank characters there. *)

(** [\s] on the characters a byte can hold *)
Definition is_space (c : ascii) : bool :=
  let n := nat_of_ascii c in
  ((9 <=? n) && (n <=? 13) || (28 <=? n) && (n <=? 32)
   || (n =? 133) || (n =? 160))%nat.

Fixpoint strip_prefix (p s : string) : option string :=
  match p, s with
  | EmptyString, _ => Some s
  | String a p', String b s' => if Ascii.eqb a b then strip_prefix p' s' else None
  | String _ _, EmptyString => None
  end.

Fixpoint span_nonspace (s : string) : string :=
  match s with
  | EmptyString => EmptyString
  | String c s' => if is_space c then EmptyString else String c (span_nonspace s')
  end.

Definition match_at (lit s : string) : option string :=
  match strip_prefix lit s with
  | Some rest =>
      match span_nonspace rest with
      | EmptyString => None
      | g => Some g
      end
  | None => None
  end.

Fixpoint re_search (lit s : string) : option string :=
  match match_at lit s with
  | Some g => Some g
  | None =>
      match s with
      | EmptyString => None
      | String _ s' => re_search lit s'
      end
  end.

(** [s.strip(',')] *)
Definition is_comma (c : ascii) : bool := Ascii.eqb c ","%char.

Fixpoint lstrip_comma (s : string) : string :=
  match s with
  | String c s' => if is_comma c then lstrip_comma s' else s
  | EmptyString => EmptyString
  end.

Fixpoint rstrip_comma (s : string) : string :=
  match s with
  | EmptyString => EmptyString
  | String c s' =>
      match rstrip_comma s' with
      | EmptyString => if is_comma c then EmptyString else String c EmptyString
      | r => String c r
      end
  end.

Definition strip_comma (s : string) : string := rstrip_comma (lstrip_comma s).

(** ** The objects of the database *)

Record Platform : Type := { platform_id : Z; network_driver : string }.

Record Device : Type := {
  device_id : Z;
  device_name : string;
  platform : option Platform;
  primary_ip : option string
}.

Record SoftwareLCM : Type := {
  software_id : Z;
  version : string;
  device_platform : option Platform
}.

Record Relationship : Type := { relationship_id : Z; label : string }.

Record ContentType : Type := { content_type_id : Z; model : string }.

Record RelationshipAssociation : Type := {
  association_id : Z;
  relationship : Z;
  source_type : Z;
  source_id : Z;
  destination_type : Z;
  destination_id : Z
}.

(** The keyword arguments handed to [ConnectHandler]. *)
Record device_info_t : Type := {
  device_type : string;
  ip : string;
  username : string;
  password : string;
  secret : string
}.

(** What the job leaves behind, in order: log lines, pings, sessions. *)
Inductive event : Type :=
  | Logged (level message : string)
  | Pinged (address : string)
  | Session (info : device_info_t) (command : option string).

Record world : Type := {
  secrets : gmap string string;
  software : list SoftwareLCM;
  relationships : list Relationship;
  content_types : list ContentType;
  associations : list RelationshipAssociation;
  next_pk : Z;
  journal : list event
}.

(** The world with more written to its journal. *)
Definition journal_add (es : list event) (w : world) : world :=
  {| secrets := secrets w; software := software w;
     relationships := relationships w;
     content_types := content_types w;
     associations := associations w;
     next_pk := next_pk w;
     journal := journal w ++ es |}.

(** The world with one more row in a table. *)
Definition insert_software (row : SoftwareLCM) (w : world) : world :=
  {| secrets := secrets w; software := software w ++ [row];
     relationships := relationships w;
     content_types := content_types w;
     associations := associations w;
     next_pk := next_pk w + 1;
     journal := journal w |}.

Definition insert_association (row : RelationshipAssociation) (w : world) : world :=
  {| secrets := secrets w; software := software w;
     relationships := relationships w;
     content_types := content_types w;
     associations := associations w ++ [row];
     next_pk := next_pk w + 1;
     journal := journal w |}.

Definition record_event (e : event) : M world unit := fun w =>
  (Ok tt, journal_add [e] w).

(** [objects.get(...)] on the rows that satisfy the lookup *)
Definition objects_get {A} (rows : list A) : result A :=
  match rows with
  | [] => Raise DoesNotExist
  | [x] => Ok x
  | _ => Raise MultipleObjectsReturned
  end.

(** [Secret.objects.get(name=..).get_value()] *)
Definition secret_value (nm : string) : M world string := fun w =>
  match secrets w !! nm with
  | Some v => (Ok v, w)
  | None => (Raise DoesNotExist, w)
  end.

(** [print_status]: the four known levels write a log line. *)
Definition print_status (status message : string) : M world unit :=
  if String.eqb status "info" then record_event (Logged "info" message)
  else if String.eqb status "success" then record_event (Logged "success" message)
  else if String.eqb status "warning" then record_event (Logged "warning" message)
  else if String.eqb status "failure" then record_event (Logged "failure" message)
  else ret tt.

(** ** [OnboardVersion] *)

Definition supported_drivers : list string := ["keymile_nos"; "cisco_xr"; "cisco_ios"].

Definition show_version_commands : gmap string string :=
  list_to_map [("arista_eos", "show version");
               ("keymile_nos", "show version");
               ("cisco_xr", "show version");
               ("cisco_ios", "show version | inc Cisco IOS Software")].

(** The literal of each pattern; the group [(\S+)] follows it. *)
Definition patterns : gmap string string :=
  list_to_map [("arista_eos", "Software image version: ");
               ("keymile_nos", "NOS version ");
               ("cisco_xr", "Cisco IOS XR Software, Version ");
               ("cisco_ios", "Version ")].

Record OnboardVersion : Type := {
  device : Device;
  platform_name : string;
  device_info : device_info_t;
  raw_version : option string;
  parsed_version : option string;
  nautobot_software : option SoftwareLCM
}.

Definition with_raw_version (self : OnboardVersion) (r : string) : OnboardVersion :=
  {| device := device self; platform_name := platform_name self;
     device_info := device_info self; raw_version := Some r;
     parsed_version := parsed_version self;
     nautobot_software := nautobot_software self |}.

Definition with_parsed_version (self : OnboardVersion) (p : string) : OnboardVersion :=
  {| device := device self; platform_name := platform_name self;
     device_info := device_info self; raw_version := raw_version self;
     parsed_version := Some p;
     nautobot_software := nautobot_software self |}.

Definition with_nautobot_software (self : OnboardVersion) (s : SoftwareLCM)
  : OnboardVersion :=
  {| device := device self; platform_name := platform_name self;
     device_info := device_info self; raw_version := raw_version self;
     parsed_version := parsed_version self;
     nautobot_software := Some s |}.

(** [f"Currently supported platforms: {self.supported_drivers}"] *)
Definition greeting : string :=
  "Currently supported platforms: ['keymile_nos', 'cisco_xr', 'cisco_ios']".

(** [__init__(self, device)] *)
Definition OnboardVersion_init (dev : Device) : M world OnboardVersion :=
  print_status "info" greeting ;;;
  p <~ lift (match platform dev with
             | Some p => Ok (network_driver p)
             | None => Raise AttributeError
             end) ;;
  if negb (bool_decide (p ∈ supported_drivers))
  then raise (Exception ("Device " +:+ device_name dev +:+ " with platform "
                         +:+ p +:+ " is not supported"))
  else
    host <~ lift (match primary_ip dev with
                  | Some h => Ok h
                  | None => Raise AttributeError
                  end) ;;
    u <~ secret_value "SSH_USERNAME" ;;
    pw <~ secret_value "SSH_PASSWORD" ;;
    sc <~ secret_value "SSH_SECRET" ;;
    ret {| device := dev; platform_name := p;
           device_info := {| device_type := p; ip := host; username := u;
                             password := pw; secret := sc |};
           raw_version := None; parsed_version := None;
           nautobot_software := None |}.

Section Collector.

(** The network: the exit status of [ping -c 1 <ip>], and what a session
    opened with the given arguments returns for a command once enabled
    (or the exception that opening, enabling or sending raises). *)
Variable ping : string -> Z.
Variable session_output : device_info_t -> option string -> result string.

(** Model validation, as [validated_save] runs it before saving. *)
Variable clean_software : SoftwareLCM -> result unit.
Variable clean_association : RelationshipAssociation -> result unit.

Definition get_version (self : OnboardVersion) : M world OnboardVersion :=
  print_status "info" ("Device name: " +:+ device_name (device self)) ;;;
  print_status "info" ("Device IP: " +:+ ip (device_info self)) ;;;
  print_status "info" ("Device platform: " +:+ device_type (device_info self)) ;;;
  record_event (Pinged (ip (device_info self))) ;;;
  if negb (ping (ip (device_info self)) =? 0)
  then raise (Exception ("Device with IP " +:+ ip (device_info self)
                         +:+ " is unreachable"))
  else
    let command := show_version_commands !! platform_name self in
    record_event (Session (device_info self) command) ;;;
    out <~ lift (session_output (device_info self) command) ;;
    ret (with_raw_version self out).

Definition parse_version (self : OnboardVersion) : M world OnboardVersion :=
  lit <~ lift (match patterns !! platform_name self with
               | Some l => Ok l
               | None => Raise TypeError
               end) ;;
  raw <~ lift (match raw_version self with
               | Some r => Ok r
               | None => Raise TypeError
               end) ;;
  match re_search lit raw with
  | Some g =>
      let parsed := strip_comma g in
      print_status "info" ("Device software version: " +:+ parsed) ;;;
      ret (with_parsed_version self parsed)
  | None =>
      raise (Exception ("Could not parse, pattern not found in the input string: "
                        +:+ lit +:+ "(\S+)"))
  end.

(** [SoftwareLCM.objects.filter(version=v)] *)
Definition software_with_version (v : string) (w : world) : list SoftwareLCM :=
  filter (fun s => version s = v) (software w).

(** [obj.validated_save()] for a new row: validate, then insert under a
    fresh primary key. *)
Definition save_software (v : string) (p : option Platform) : M world SoftwareLCM :=
  fun w =>
    let row := {| software_id := next_pk w; version := v; device_platform := p |} in
    match clean_software row with
    | Raise e => (Raise e, w)
    | Ok _ => (Ok row, insert_software row w)
    end.

Definition save_association (rel src_t src dst_t dst : Z)
  : M world RelationshipAssociation :=
  fun w =>
    let row := {| association_id := next_pk w; relationship := rel;
                  source_type := src_t; source_id := src;
                  destination_type := dst_t; destination_id := dst |} in
    match clean_association row with
    | Raise e => (Raise e, w)
    | Ok _ => (Ok row, insert_association row w)
    end.

Definition import_to_nautobot (self : OnboardVersion) : M world OnboardVersion :=
  match parsed_version self with
  | None => raise (ValidationError "version")
  | Some v => fun w =>
      match software_with_version v w with
      | _ :: _ =>
          (sw <~ lift (objects_get (software_with_version v w)) ;;
           print_status "info"
             ("Software version " +:+ version sw +:+ " exists in the database.") ;;;
           ret (with_nautobot_software self sw)) w
      | [] =>
          (sw <~ save_software v (platform (device self)) ;;
           print_status "info"
             ("Created software version " +:+ version sw +:+ " in the database.") ;;;
           ret (with_nautobot_software self sw)) w
      end
  end.

(** [RelationshipAssociation.objects.filter(relationship=..,
    source_id=.., destination_id=..)] *)
Definition associations_of (rel src dst : Z) (w : world)
  : list RelationshipAssociation :=
  filter (fun a => relationship a = rel ∧ source_id a = src
                   ∧ destination_id a = dst) (associations w).

Definition assign_to_device (self : OnboardVersion) : M world unit := fun w =>
  (software_rel <~ lift (objects_get
      (filter (fun r => label r = "Software on Device") (relationships w))) ;;
   sw <~ lift (match nautobot_software self with
               | Some s => Ok s
               | None => Raise AttributeError
               end) ;;
   fun w1 =>
     match associations_of (relationship_id software_rel) (software_id sw)
                           (device_id (device self)) w1 with
     | _ :: _ =>
         print_status "info"
           ("Relationship " +:+ device_name (device self) +:+ " <-> "
            +:+ version sw +:+ " exists.") w1
     | [] =>
         (source_ct <~ lift (objects_get
             (filter (fun c => model c = "softwarelcm") (content_types w1))) ;;
          dest_ct <~ lift (objects_get
             (filter (fun c => model c = "device") (content_types w1))) ;;
          save_association (relationship_id software_rel)
                           (content_type_id source_ct) (software_id sw)
                           (content_type_id dest_ct)
                           (device_id (device self)) ;;;
          print_status "info"
            ("Created " +:+ device_name (device self) +:+ " <-> "
             +:+ version sw +:+ " relationship.")) w1
     end) w.

(** The recording step: the last two calls of [execute]. *)
Definition record_version (self : OnboardVersion) : M world unit :=
  self1 <~ import_to_nautobot self ;;
  assign_to_device self1.

Definition execute (self : OnboardVersion) : M world unit :=
  self1 <~ get_version self ;;
  self2 <~ parse_version self1 ;;
  self3 <~ import_to_nautobot self2 ;;
  assign_to_device self3.

(** The loop body of [run]. *)
Definition onboard (dev : Device) : M world unit :=
  task <~ OnboardVersion_init dev ;;
  execute task.

(** [GetShowVersion.run(self, devices)] *)
Definition run (devices : list Device) : M world unit :=
  for_each onboard devices.

(** The three ways a device fails that the job raises for itself. *)
Inductive failure (dev : Device) (w : world) : Prop :=
  | unsupported_platform p :
      platform dev = Some p ->
      network_driver p ∉ supported_drivers ->
      failure dev w
  | unreachable_address task w' :
      OnboardVersion_init dev w = (Ok task, w') ->
      ping (ip (device_info task)) <> 0 ->
      failure dev w
  | pattern_not_found task w' lit out :
      OnboardVersion_init dev w = (Ok task, w') ->
      ping (ip (device_info task)) = 0 ->
      session_output (device_info task)
                     (show_version_commands !! platform_name task) = Ok out ->
      patterns !! platform_name task = Some lit ->
      re_search lit out = None ->
      failure dev w.

End Collector.

(** The tables of the database agree between two worlds. *)
Definition same_database (w w' : world) : Prop :=
  secrets w' = secrets w
  /\ software w' = software w
  /\ relationships w' = relationships w
  /\ content_types w' = content_types w
  /\ associations w' = associations w
  /\ next_pk w' = next_pk w.

(** The addresses pinged, in the order of the pings. *)
Definition pinged (w : world) : list string :=
  omap (fun e => match e with Pinged a => Some a | _ => None end) (journal w).

(** The sessions opened, in order, by the arguments they were opened
    with. *)
Definition sessions (w : world) : list device_info_t :=
  omap (fun e => match e with Session i _ => Some i | _ => None end) (journal w).

(** ** A small network and database, for worked examples *)

Definition ios : Platform := {| platform_id := 1; network_driver := "cisco_ios" |}.
Definition eos : Platform := {| platform_id := 2; network_driver := "arista_eos" |}.

Definition router1 : Device :=
  {| device_id := 1; device_name := "router1"; platform := Some ios;
     primary_ip := Some "10.0.0.1" |}.
Definition switch2 : Device :=
  {| device_id := 2; device_name := "switch2"; platform := Some eos;
     primary_ip := Some "10.0.0.2" |}.
Definition router3 : Device :=
  {| device_id := 3; device_name := "router3"; platform := Some ios;
     primary_ip := Some "10.0.0.3" |}.
Definition router4 : Device :=
  {| device_id := 4; device_name := "router4"; platform := Some ios;
     primary_ip := Some "10.0.0.4" |}.

(** 10.0.0.3 does not answer; 10.0.0.4 answers with a banner that has no
    version in it. *)
Definition lab_ping (address : string) : Z :=
  if String.eqb address "10.0.0.3" then 256 else 0.

Definition lab_output (info : device_info_t) (command : option string)
  : result string :=
  if String.eqb (ip info) "10.0.0.4"
  then Ok "% Invalid input detected"
  else Ok "Cisco IOS Software, C2900 Software (C2900-UNIVERSALK9-M), Version 15.2(4)M3, RELEASE SOFTWARE (fc2)".

Definition accept_software (s : SoftwareLCM) : result unit := Ok tt.
Definition accept_association (a : RelationshipAssociation) : result unit := Ok tt.

Definition lab : world :=
  {| secrets := list_to_map [("SSH_USERNAME", "admin"); ("SSH_PASSWORD", "pw");
                             ("SSH_SECRET", "en")];
     software := [];
     relationships := [{| relationship_id := 50; label := "Software on Device" |}];
     content_types := [{| content_type_id := 7; model := "softwarelcm" |};
                       {| content_type_id := 8; model := "device" |}];
     associations := [];
     next_pk := 100;
     journal := [] |}.

Definition lab_task : OnboardVersion :=
  {| device := router1; platform_name := "cisco_ios";
     device_info := {| device_type := "cisco_ios"; ip := "10.0.0.1";
                       username := "admin"; password := "pw"; secret := "en" |};
     raw_version := None; parsed_version := Some "15.2(4)M3";
     nautobot_software := None |}.

End GetVersion.

(** * Properties *)

(** ** The monad *)

Lemma bind_ok {St A B} (m : M St A) (k : A -> M St B) st b st' :
  bind m k st = (Ok b, st') ->
  exists a st1, m st = (Ok a, st1) /\ k a st1 = (Ok b, st').
Proof.
  unfold bind. destruct (m st) as [[a|e] st1]; intros H.
  - eauto.
  - discriminate.
Qed.

Lemma bind_raise {St A B} (m : M St A) (k : A -> M St B) st e st' :
  m st = (Raise e, st') -> bind m k st = (Raise e, st').
Proof. unfold bind. intros ->. reflexivity. Qed.

Lemma bind_step {St A B} (m : M St A) (k : A -> M St B) st a st1 :
  m st = (Ok a, st1) -> bind m k st = k a st1.
Proof. unfold bind. intros ->. reflexivity. Qed.

Lemma lift_ok {St A} (r : result A) (st st' : St) a :
  lift r st = (Ok a, st') -> r = Ok a /\ st' = st.
Proof. unfold lift. intros H. inversion H. auto. Qed.

(** A loop over [xs ++ ys] runs the loop over [xs] and, if that did not
    raise, the loop over [ys] from where it stopped. *)
Lemma for_each_app {St A} (body : A -> M St unit) xs ys st :
  for_each body (xs ++ ys) st =
  match for_each body xs st with
  | (Ok _, st1) => for_each body ys st1
  | (Raise e, st1) => (Raise e, st1)
  end.
Proof.
  revert st. induction xs as [|x xs IH]; intros st; simpl.
  - reflexivity.
  - unfold bind. destruct (body x st) as [[[]|e] st1]; [apply IH | reflexivity].
Qed.

(** An iteration that raises ends the loop there, whatever follows. *)
Lemma for_each_raises {St A} (body : A -> M St unit) pre x post st st1 e st2 :
  for_each body pre st = (Ok tt, st1) ->
  body x st1 = (Raise e, st2) ->
  for_each body (pre ++ x :: post) st = (Raise e, st2).
Proof.
  intros Hpre Hx. rewrite for_each_app, Hpre. simpl.
  apply bind_raise. exact Hx.
Qed.

(** ** [jobs/example_ssot_data_target.py] *)

Module DataTargetProperties.
Import ExampleSsotDataTarget.

Section Remote.

Context {server : Type}.
Variable serve : server -> request -> reply * server.
Variable base_create : gmap string value -> gmap string value -> result VLANModel.
Variable base_update : VLANModel -> gmap string value -> result VLANModel.
Variable base_delete : VLANModel -> result VLANModel.
Context {V : Validation}.

Local Abbreviation send := (send serve).
Local Abbreviation delivered := (delivered serve).
Local Abbreviation post := (post serve).
Local Abbreviation patch := (patch serve).
Local Abbreviation delete := (delete serve).
Local Abbreviation _get_api_data := (_get_api_data serve).
Local Abbreviation load := (load serve).
Local Abbreviation create := (VLANRemoteModel_create serve base_create).
Local Abbreviation update := (VLANRemoteModel_update serve base_update).
Local Abbreviation remove := (VLANRemoteModel_delete serve base_delete).

Lemma send_delivers rq (st : state server) :
  send rq st =
  (match fst (serve (remote st) rq) with
   | Answer r => Ok r
   | NoAnswer e => Raise e
   end, delivered rq st).
Proof.
  unfold ExampleSsotDataTarget.send, ExampleSsotDataTarget.delivered.
  destruct (serve (remote st) rq) as [[r|e] srv]; reflexivity.
Qed.

Lemma post_once self path data (st : state server) :
  post self path data st =
  (outcome (fst (serve (remote st) (post_request self path data))),
   delivered (post_request self path data) st).
Proof.
  unfold ExampleSsotDataTarget.post, bind. rewrite send_delivers.
  destruct (fst _) as [r|e]; simpl; [|reflexivity].
  destruct (raise_for_status r) as [[]|e]; reflexivity.
Qed.

Lemma patch_once self path data (st : state server) :
  patch self path data st =
  (outcome (fst (serve (remote st) (patch_request self path data))),
   delivered (patch_request self path data) st).
Proof.
  unfold ExampleSsotDataTarget.patch, bind. rewrite send_delivers.
  destruct (fst _) as [r|e]; simpl; [|reflexivity].
  unfold lift. destruct (raise_for_status r) as [[]|e]; reflexivity.
Qed.

Lemma delete_once self path (st : state server) :
  delete self path st =
  (outcome (fst (serve (remote st) (delete_request self path))),
   delivered (delete_request self path) st).
Proof.
  unfold ExampleSsotDataTarget.delete, bind. rewrite send_delivers.
  destruct (fst _) as [r|e]; simpl; [|reflexivity].
  unfold lift. destruct (raise_for_status r) as [[]|e]; reflexivity.
Qed.

Lemma outcome_rejected rp r :
  rp = Answer r -> 400 <= status_code r < 600 ->
  outcome rp = Raise (HTTPError (status_code r)).
Proof.
  intros -> [Hlo Hhi]. unfold outcome, raise_for_status.
  apply Z.leb_le in Hlo. apply Z.ltb_lt in Hhi. rewrite Hlo, Hhi. reflexivity.
Qed.

(** C3 (as the code has it): each of [post], [patch] and [delete] sends
    exactly one request and reports what that one reply gives: the
    transport's exception, an [HTTPError] for every status from 400 to
    599 alike (503, 429 and 408 as much as 400 or 404), or the
    response.  Nothing is sent a second time. *)
Theorem C3_writers_send_once_and_raise self path data (st : state server) :
  let answer rq := outcome (fst (serve (remote st) rq)) in
  post self path data st
    = (answer (post_request self path data),
       delivered (post_request self path data) st)
  /\ patch self path data st
    = (answer (patch_request self path data),
       delivered (patch_request self path data) st)
  /\ delete self path st
    = (answer (delete_request self path),
       delivered (delete_request self path) st)
  /\ (forall rq, length (wire (delivered rq st)) = S (length (wire st)))
  /\ (forall code body,
        400 <= code < 600 ->
        outcome (Answer {| status_code := code; content := body |})
        = Raise (HTTPError code))
  /\ (forall e, outcome (NoAnswer e) = Raise e).
Proof.
  cbv zeta. split; [apply post_once|]. split; [apply patch_once|].
  split; [apply delete_once|]. split; [|split].
  - intros rq. unfold ExampleSsotDataTarget.delivered. simpl.
    rewrite length_app. simpl. lia.
  - intros code body H. exact (outcome_rejected _ {| status_code := code; content := body |} eq_refl H).
  - reflexivity.
Qed.


Lemma get_once self (st : state server) :
  snd (_get_api_data self st) = delivered (get_request self) st.
Proof.
  unfold ExampleSsotDataTarget._get_api_data, bind. rewrite send_delivers.
  destruct (fst _) as [r|e]; simpl; [|reflexivity].
  unfold lift. destruct (json r) as [d|e]; reflexivity.
Qed.

Lemma update_once diffsync obj attrs (st : state server) :
  let rq := patch_request diffsync (vlan_path (pk obj)) (VDict (update_data attrs)) in
  update diffsync obj attrs st =
  (_ <~r outcome (fst (serve (remote st) rq)) ;; base_update obj attrs,
   delivered rq st).
Proof.
  cbv zeta. unfold VLANRemoteModel_update, bind. rewrite patch_once.
  destruct (outcome _); reflexivity.
Qed.

Lemma remove_once diffsync obj (st : state server) :
  let rq := delete_request diffsync (vlan_path (pk obj)) in
  remove diffsync obj st =
  (_ <~r outcome (fst (serve (remote st) rq)) ;; base_delete obj,
   delivered rq st).
Proof.
  cbv zeta. unfold VLANRemoteModel_delete, bind. rewrite delete_once.
  destruct (outcome _); reflexivity.
Qed.

Lemma create_once diffsync ids attrs (st : state server) :
  create diffsync ids attrs st =
  match create_data ids attrs with
  | Raise e => (Raise e, st)
  | Ok data =>
      let rq := post_request diffsync "/api/ipam/vlans/" (VDict data) in
      (_ <~r outcome (fst (serve (remote st) rq)) ;; base_create ids attrs,
       delivered rq st)
  end.
Proof.
  unfold VLANRemoteModel_create, bind, lift.
  destruct (create_data ids attrs) as [data|e]; [|reflexivity].
  rewrite post_once. destruct (outcome _); reflexivity.
Qed.

(** *** Loading *)

Lemma add_ok obj (st st' : state server) :
  add obj st = (Ok tt, st') ->
  store st !! get_key obj = None
  /\ remote st' = remote st /\ wire st' = wire st
  /\ store st' = <[get_key obj := obj]> (store st).
Proof.
  unfold add. destruct (store st !! get_key obj) eqn:E; intros H; inversion H.
  simpl. auto.
Qed.

Lemma load_one_ok item (st st' : state server) :
  load_one item st = (Ok tt, st') ->
  exists obj, load_item item = Ok obj
    /\ store st !! get_key obj = None
    /\ remote st' = remote st /\ wire st' = wire st
    /\ store st' = <[get_key obj := obj]> (store st).
Proof.
  unfold load_one. intros H.
  apply bind_ok in H as (obj & st1 & Hl & Ha).
  apply lift_ok in Hl as [Hl ->]. exists obj. split; [exact Hl|].
  apply add_ok. exact Ha.
Qed.

(** The loop of [load]: it leaves the wire alone, and the snapshot
    gains exactly the records of the items, one each. *)
Lemma load_loop items : forall (st st' : state server),
  for_each load_one items st = (Ok tt, st') ->
  remote st' = remote st /\ wire st' = wire st
  /\ (forall k obj, store st !! k = Some obj -> store st' !! k = Some obj)
  /\ (forall item, item ∈ items ->
        exists obj, load_item item = Ok obj
                    /\ store st' !! get_key obj = Some obj)
  /\ (forall k obj, store st' !! k = Some obj ->
        store st !! k = Some obj
        \/ exists item, item ∈ items /\ load_item item = Ok obj)
  /\ size (store st') = (size (store st) + length items)%nat.
Proof.
  induction items as [|item items IH]; intros st st' H; simpl in H.
  - inversion H; subst. split; [reflexivity|]. split; [reflexivity|].
    split; [auto|]. split; [intros item Hin; inversion Hin|].
    split; [auto|]. simpl. lia.
  - apply bind_ok in H as ([] & st1 & H1 & H2).
    apply load_one_ok in H1 as (obj & Hobj & Hfresh & Hr & Hw & Hs).
    apply IH in H2 as (Hr2 & Hw2 & Hkeep & Hall & Honly & Hsize).
    assert (Hobj1 : store st1 !! get_key obj = Some obj)
      by (rewrite Hs; apply lookup_insert_eq).
    split; [congruence|]. split; [congruence|]. split; [|split; [|split]].
    + intros k o Hk. apply Hkeep. rewrite Hs.
      rewrite lookup_insert_ne; [exact Hk|]. intros <-. congruence.
    + intros it Hin. apply elem_of_cons in Hin as [->|Hin].
      * exists obj. split; [exact Hobj|]. apply Hkeep. exact Hobj1.
      * apply Hall. exact Hin.
    + intros k o Hk. apply Honly in Hk as [Hk|(it & Hin & Hit)].
      * rewrite Hs in Hk. destruct (decide (get_key obj = k)) as [<-|Hne].
        -- rewrite lookup_insert_eq in Hk. inversion Hk; subst o.
           right. exists item. split; [apply list_elem_of_here|exact Hobj].
        -- rewrite lookup_insert_ne in Hk by exact Hne. left. exact Hk.
      * right. exists it. split; [apply list_elem_of_further; exact Hin|exact Hit].
    + rewrite Hsize, Hs. rewrite map_size_insert_None by exact Hfresh.
      simpl. lia.
Qed.

(** C1 (as the code has it): a successful [load] has sent exactly one
    request, the GET of the collection URL, and the snapshot has gained
    one record for each item of the [results] list of that single reply,
    and nothing else.  The reply's [next] pointer is never read. *)
Theorem C1_load_reads_one_reply self (st st' : state server) :
  load self st = (Ok tt, st') ->
  exists r data results items,
    fst (serve (remote st) (get_request self)) = Answer r
    /\ json r = Ok data
    /\ subscript data "results" = Ok results
    /\ iterate results = Ok items
    /\ remote st' = snd (serve (remote st) (get_request self))
    /\ wire st' = wire st ++ [get_request self]
    /\ (forall item, item ∈ items ->
          exists obj, load_item item = Ok obj
                      /\ store st' !! get_key obj = Some obj)
    /\ (forall k obj, store st' !! k = Some obj ->
          store st !! k = Some obj
          \/ exists item, item ∈ items /\ load_item item = Ok obj)
    /\ size (store st') = (size (store st) + length items)%nat.
Proof.
  unfold ExampleSsotDataTarget.load. intros H.
  apply bind_ok in H as (results & st1 & Hget & H).
  apply bind_ok in H as (items & st2 & Hit & Hloop).
  apply lift_ok in Hit as [Hit ->].
  pose proof (get_once self st) as Hst. rewrite Hget in Hst. simpl in Hst.
  unfold ExampleSsotDataTarget._get_api_data in Hget.
  apply bind_ok in Hget as (r & st0 & Hsend & Hget).
  apply bind_ok in Hget as (data & st0' & Hjson & Hres).
  apply lift_ok in Hjson as [Hjson ->]. apply lift_ok in Hres as [Hres _].
  rewrite send_delivers in Hsend.
  destruct (fst (serve (remote st) (get_request self))) as [r0|e] eqn:Hr;
    inversion Hsend; subst r0.
  apply load_loop in Hloop as (Hr2 & Hw2 & _ & Hall & Honly & Hsize).
  subst st1. simpl in *.
  exists r, data, results, items. repeat split; auto.
Qed.

(** *** Applying changes *)


(** C4 (as the code has it): [create] drops the response of its POST.
    The object it returns is the one the base class builds from [ids]
    and [attrs] alone, and a later [update] or [delete] of that object
    addresses the remote by the object's own [pk]. *)
Theorem C4_create_keeps_no_handle diffsync ids attrs (st st' : state server) obj :
  create diffsync ids attrs st = (Ok obj, st') ->
  base_create ids attrs = Ok obj
  /\ (forall attrs' st2,
        snd (update diffsync obj attrs' st2)
        = delivered (patch_request diffsync (vlan_path (pk obj))
                       (VDict (update_data attrs'))) st2)
  /\ (forall st2,
        snd (remove diffsync obj st2)
        = delivered (delete_request diffsync (vlan_path (pk obj))) st2).
Proof.
  intros H. rewrite create_once in H.
  destruct (create_data ids attrs) as [data|e]; [|discriminate].
  cbv zeta in H. destruct (outcome _) as [r|e]; simpl in H; [|discriminate].
  split; [congruence|]. split.
  - intros attrs' st2. rewrite update_once. reflexivity.
  - intros st2. rewrite remove_once. reflexivity.
Qed.

(** C7: the body of the PATCH that [update] sends holds the entries of
    [attrs], the changed attributes handed to it: [description] under
    its own name and [status__name] under the wire name [status], each
    with the value given, and no other entry; in particular no
    identifier field. *)
Theorem C7_patch_body_is_the_changed_attributes
    diffsync self attrs (st : state server) :
  snd (update diffsync self attrs st)
  = delivered (patch_request diffsync (vlan_path (pk self))
                 (VDict (update_data attrs))) st
  /\ (forall k v,
        update_data attrs !! k = Some v <->
        (k = "description" /\ attrs !! "description" = Some v)
        \/ (k = "status" /\ attrs !! "status__name" = Some v))
  /\ (forall k, k ∈ _identifiers -> update_data attrs !! k = None).
Proof.
  assert (Hbody : forall k v,
        update_data attrs !! k = Some v <->
        (k = "description" /\ attrs !! "description" = Some v)
        \/ (k = "status" /\ attrs !! "status__name" = Some v)).
  { intros k v. unfold update_data.
    destruct (attrs !! "description") as [d|] eqn:Hd;
      destruct (attrs !! "status__name") as [s|] eqn:Hs;
      rewrite ?lookup_insert, ?lookup_empty;
      destruct (decide ("status" = k)); destruct (decide ("description" = k));
      subst; try discriminate;
      (split; [intros H; inversion H; subst; auto
              |intros [[H1 H2]|[H1 H2]]; congruence]). }
  split; [rewrite update_once; reflexivity|]. split; [exact Hbody|].
  intros k Hk. destruct (update_data attrs !! k) as [v|] eqn:E; [|reflexivity].
  apply Hbody in E. unfold _identifiers in Hk.
  repeat (apply elem_of_cons in Hk as [->|Hk]); [| | |inversion Hk];
    destruct E as [[E _]|[E _]]; discriminate.
Qed.

(** C5 (as the code has it): every request the adapter sends, the GET
    of [load] and the POST, PATCH and DELETE of the three writers,
    carries the header [Authorization: Token <token>] and is sent with
    [verify=False]; the adapter takes a URL and a token and nothing that
    would switch verification on.  The client of the data-source job has
    its session's [verify] set to [False] as well. *)
Theorem C5_every_request_has_the_token_and_no_verification
    a_url a_token path data (st : state server) :
  let self := __init__ a_url a_token in
  let marked rq :=
    rq_headers rq !! "Authorization" = Some ("Token " +:+ a_token)
    /\ rq_verify rq = false in
  (snd (_get_api_data self st) = delivered (get_request self) st
   /\ marked (get_request self))
  /\ (snd (post self path data st) = delivered (post_request self path data) st
      /\ marked (post_request self path data))
  /\ (snd (patch self path data st) = delivered (patch_request self path data) st
      /\ marked (patch_request self path data))
  /\ (snd (delete self path st) = delivered (delete_request self path) st
      /\ marked (delete_request self path))
  /\ ExampleSsot.http_session_verify ExampleSsot.init_api = false.
Proof.
  cbv zeta.
  assert (Hh : headers (__init__ a_url a_token) !! "Authorization"
               = Some ("Token " +:+ a_token))
    by (unfold __init__; simpl; apply lookup_insert_eq).
  split; [split; [apply get_once|split; [exact Hh|reflexivity]]|].
  split; [split; [rewrite post_once; reflexivity|split; [exact Hh|reflexivity]]|].
  split; [split; [rewrite patch_once; reflexivity|split; [exact Hh|reflexivity]]|].
  split; [split; [rewrite delete_once; reflexivity|split; [exact Hh|reflexivity]]|].
  reflexivity.
Qed.

Lemma create_data_status ids attrs body :
  create_data ids attrs = Ok body ->
  exists s, attrs !! "status__name" = Some (VStr s)
            /\ body !! "status" = Some (VStr (lower s)).
Proof.
  unfold create_data, getitem, rbind.
  destruct (ids !! "vid") as [v|]; [|discriminate].
  destruct (ids !! "name") as [n|]; [|discriminate].
  destruct (attrs !! "status__name") as [s0|]; [|discriminate].
  destruct s0 as [| | |s| |]; simpl; try discriminate.
  destruct (attrs !! "description") as [d|]; [|discriminate].
  intros H. inversion H; subst body. exists s. split; reflexivity.
Qed.

(** C9: [load] gives every record the status ["active"], whatever
    [status] the remote item carries.  The POST that [create] sends
    carries in its body, under [status], the source's status lowercased
    (stated for ASCII text: every capital letter from A to Z replaced by
    its small letter, every other character as it is), and the PATCH that
    [update] sends carries it as it is. *)
Theorem C9_status_is_constant_on_load_lowered_on_create_plain_on_update :
  (forall item obj, load_item item = Ok obj -> status__name obj = "active")
  /\ (forall d s, load_item (VDict (<["status" := s]> d)) = load_item (VDict d))
  /\ (forall diffsync ids attrs body s (st : state server),
        create_data ids attrs = Ok body ->
        attrs !! "status__name" = Some (VStr s) ->
        Forall (fun c => (nat_of_ascii c < 128)%nat) (list_ascii_of_string s) ->
        exists rq sent low,
          wire (snd (create diffsync ids attrs st)) = wire st ++ [rq]
          /\ rq_method rq = POST
          /\ rq_json rq = Some (VDict sent)
          /\ sent !! "status" = Some (VStr low)
          /\ list_ascii_of_string low
             = map (fun c => if ((65 <=? nat_of_ascii c)
                                 && (nat_of_ascii c <=? 90))%nat
                             then ascii_of_nat (nat_of_ascii c + 32)
                             else c)
                   (list_ascii_of_string s))
  /\ (forall diffsync self attrs v (st : state server),
        attrs !! "status__name" = Some v ->
        exists rq sent,
          wire (snd (update diffsync self attrs st)) = wire st ++ [rq]
          /\ rq_method rq = PATCH
          /\ rq_json rq = Some (VDict sent)
          /\ sent !! "status" = Some v).
Proof.
  split; [|split; [|split]].
  - intros item obj. unfold load_item, rbind.
    destruct (subscript item "vid"); [|discriminate].
    destruct (subscript item "name"); [|discriminate].
    destruct (dict_get item "group"); [|discriminate].
    destruct (if truthy _ then _ else _); [|discriminate].
    destruct (subscript item "description"); [|discriminate].
    unfold vlan, rbind.
    destruct (as_int _ _); [|discriminate].
    destruct (as_str "name" _); [|discriminate].
    simpl.
    destruct (as_optional_str "vlan_group__name" _); [|discriminate].
    destruct (as_optional_str "description" _); [|discriminate].
    intros H. inversion H. reflexivity.
  - intros d s. unfold load_item, subscript, dict_get.
    rewrite !lookup_insert_ne by discriminate. reflexivity.
  - intros diffsync ids attrs body s st Hd Hs _.
    destruct (create_data_status _ _ _ Hd) as (s' & Hs' & Hst).
    rewrite Hs in Hs'. inversion Hs'; subst s'.
    eexists _, body, (lower s). rewrite create_once, Hd. cbv zeta. simpl.
    split; [reflexivity|]. split; [reflexivity|]. split; [reflexivity|].
    split; [exact Hst|].
    clear. induction s as [|c s IH]; simpl; [reflexivity|].
    rewrite IH. reflexivity.
  - intros diffsync self attrs v st Hv.
    eexists _, (update_data attrs). rewrite update_once. cbv zeta. simpl.
    split; [reflexivity|]. split; [reflexivity|]. split; [reflexivity|].
    unfold update_data. rewrite Hv. apply lookup_insert_eq.
Qed.

End Remote.

(** *** Worked examples on concrete remotes *)

(** The examples validate strictly: nothing is converted. *)
#[local] Existing Instance strict.

(** The remote holds two VLANs, one per page; the first page names the
    second.  [load] succeeds after the one GET, and VLAN 20, held on the
    second page, has no record in the snapshot. *)
Lemma C1_second_page_is_never_read :
  let run := load two_pages target_adapter (fresh tt) in
  let voice := item 2 20 "voice" VNone in
  fst run = Ok tt
  /\ wire (snd run) = [get_request target_adapter]
  /\ fst (two_pages tt (get_request target_adapter))
     = ok_json (page (VStr page2_url) [item 1 10 "users" VNone])
  /\ voice ∈ collection
  /\ (exists obj, load_item voice = Ok obj /\ get_key obj = (20, "voice", None))
  /\ store (snd run) !! (20, "voice", None) = None
  /\ ~ (forall it, it ∈ collection ->
          exists obj, load_item it = Ok obj
                      /\ store (snd run) !! get_key obj = Some obj).
Proof.
  cbv zeta.
  assert (Hin : item 2 20 "voice" VNone ∈ collection)
    by (apply list_elem_of_further, list_elem_of_here).
  split; [reflexivity|]. split; [reflexivity|]. split; [reflexivity|].
  split; [exact Hin|]. split; [eexists; split; reflexivity|].
  split; [reflexivity|].
  intros H. destruct (H _ Hin) as (obj & Hobj & Hstore).
  vm_compute in Hobj. inversion Hobj; subst obj. vm_compute in Hstore.
  discriminate.
Qed.

Lemma C1_load_reads_one_reply_witness :
  let st := fresh tt in
  let st' := snd (load two_pages target_adapter st) in
  load two_pages target_adapter st = (Ok tt, st')
  /\ exists r data results items,
      fst (two_pages (remote st) (get_request target_adapter)) = Answer r
      /\ json r = Ok data
      /\ subscript data "results" = Ok results
      /\ iterate results = Ok items
      /\ remote st' = snd (two_pages (remote st) (get_request target_adapter))
      /\ wire st' = wire st ++ [get_request target_adapter]
      /\ (forall item, item ∈ items ->
            exists obj, load_item item = Ok obj
                        /\ store st' !! get_key obj = Some obj)
      /\ (forall k obj, store st' !! k = Some obj ->
            store st !! k = Some obj
            \/ exists item, item ∈ items /\ load_item item = Ok obj)
      /\ size (store st') = (size (store st) + length items)%nat.
Proof.
  cbv zeta. split; [reflexivity|].
  apply (C1_load_reads_one_reply two_pages target_adapter (fresh tt)).
  reflexivity.
Defined.



(** The remote answers 503 to the first request and 200 to any later
    one.  [patch] (and [update] through it) raises after its one request,
    although the same call made again would have succeeded; a timeout is
    raised after one request just the same. *)
Lemma C3_an_unavailable_remote_is_not_asked_again :
  let body := VDict (new_description "core") in
  let rq := patch_request target_adapter "/api/ipam/vlans/1/" body in
  let first := patch unavailable_once target_adapter "/api/ipam/vlans/1/" body
                     (fresh 0%nat) in
  fst first = Raise (HTTPError 503)
  /\ wire (snd first) = [rq]
  /\ fst (patch unavailable_once target_adapter "/api/ipam/vlans/1/" body (snd first))
     = Ok {| status_code := 200; content := None |}
  /\ VLANRemoteModel_update unavailable_once plain_update target_adapter vlan_a
       (new_description "core") (fresh 0%nat)
     = (Raise (HTTPError 503), delivered unavailable_once rq (fresh 0%nat))
  /\ fst (patch times_out target_adapter "/api/ipam/vlans/1/" body (fresh tt))
     = Raise Timeout
  /\ wire (snd (patch times_out target_adapter "/api/ipam/vlans/1/" body (fresh tt)))
     = [rq].
Proof. cbv zeta. repeat split; reflexivity. Qed.

(** The remote numbers the created VLAN 7 and says so in its response.
    The object [create] returns has no [pk], and the update that follows
    is sent to [/api/ipam/vlans/None/], not to the URL of item 7. *)
Lemma C4_the_returned_handle_is_not_used :
  let made := VLANRemoteModel_create numbering plain_create target_adapter
                ids30 attrs30 (fresh 7) in
  let obj := {| pk := None; vid := 30; name := "lab"; status__name := "Active";
                vlan_group__name := None; description := Some "x" |} in
  let later := VLANRemoteModel_update numbering plain_update target_adapter obj
                 (new_description "y") (snd made) in
  fst made = Ok obj
  /\ (exists d, create_data ids30 attrs30 = Ok d
        /\ fst (numbering 7 (post_request target_adapter "/api/ipam/vlans/" (VDict d)))
           = Answer {| status_code := 201;
                       content := Some (VDict (<["id" := VInt 7]> d)) |})
  /\ map rq_url (wire (snd later))
     = [target_url +:+ "/api/ipam/vlans/"; target_url +:+ "/api/ipam/vlans/None/"]
  /\ existsb (fun rq => String.eqb (rq_url rq)
                          (target_url +:+ "/api/ipam/vlans/7/"))
             (wire (snd later)) = false.
Proof.
  cbv zeta. split; [reflexivity|]. split; [eexists; split; reflexivity|].
  split; reflexivity.
Qed.

Lemma C4_create_keeps_no_handle_witness :
  let made := VLANRemoteModel_create numbering plain_create target_adapter
                ids30 attrs30 (fresh 7) in
  let obj := {| pk := None; vid := 30; name := "lab"; status__name := "Active";
                vlan_group__name := None; description := Some "x" |} in
  made = (Ok obj, snd made)
  /\ plain_create ids30 attrs30 = Ok obj
  /\ (forall attrs' st2,
        snd (VLANRemoteModel_update numbering plain_update target_adapter obj attrs' st2)
        = delivered numbering
            (patch_request target_adapter (vlan_path (pk obj))
               (VDict (update_data attrs'))) st2)
  /\ (forall st2,
        snd (VLANRemoteModel_delete numbering plain_delete target_adapter obj st2)
        = delivered numbering
            (delete_request target_adapter (vlan_path (pk obj))) st2).
Proof.
  cbv zeta. split; [reflexivity|].
  apply (C4_create_keeps_no_handle numbering plain_create plain_update plain_delete
           target_adapter ids30 attrs30 (fresh 7)
           (snd (VLANRemoteModel_create numbering plain_create target_adapter
                   ids30 attrs30 (fresh 7)))).
  reflexivity.
Defined.

(** The status ["Active"] on its way out: the POST of [create] carries
    ["active"], the PATCH of [update] carries ["Active"]; and an item
    whose status is ["reserved"] is loaded as ["active"]. *)
Lemma the_status_on_load_create_and_update :
  let posted := snd (VLANRemoteModel_create numbering plain_create target_adapter
                       ids30 attrs30 (fresh 7)) in
  let patched := snd (VLANRemoteModel_update numbering plain_update target_adapter
                        vlan_a {[ "status__name" := VStr "Active" ]} (fresh 7)) in
  status__name <$> match load_item (item 1 10 "users" VNone) with
                   | Ok obj => Some obj
                   | Raise _ => None
                   end = Some "active"
  /\ attrs30 !! "status__name" = Some (VStr "Active")
  /\ (rq_json <$> wire posted)
     = [Some (VDict (list_to_map [("vid", VInt 30); ("name", VStr "lab");
                                  ("status", VStr "active");
                                  ("group__name", VNone);
                                  ("description", VStr "x")]))]
  /\ (rq_json <$> wire patched) = [Some (VDict {[ "status" := VStr "Active" ]})].
Proof. cbv zeta. repeat split; reflexivity. Qed.

(** The adapter as the job builds it from its form defaults, with no
    option given anywhere: the GET of [load] and a POST, a PATCH and a
    DELETE all leave with [verify=False]. *)
Lemma C5_verification_is_off_without_any_opt_in :
  let st1 := snd (VLANRemoteModel_create numbering plain_create target_adapter
                    ids30 attrs30 (fresh 7)) in
  let st2 := snd (VLANRemoteModel_update numbering plain_update target_adapter
                    vlan_a (new_description "core") st1) in
  let st3 := snd (VLANRemoteModel_delete numbering plain_delete target_adapter
                    vlan_b st2) in
  map rq_verify (wire (snd (load two_pages target_adapter (fresh tt)))) = [false]
  /\ (exists made,
        fst (VLANRemoteModel_create numbering plain_create target_adapter
               ids30 attrs30 (fresh 7)) = Ok made)
  /\ (exists updated,
        fst (VLANRemoteModel_update numbering plain_update target_adapter
               vlan_a (new_description "core") st1) = Ok updated)
  /\ fst (VLANRemoteModel_delete numbering plain_delete target_adapter
            vlan_b st2) = Ok vlan_b
  /\ map rq_method (wire st3) = [POST; PATCH; DELETE]
  /\ map rq_verify (wire st3) = [false; false; false]
  /\ headers target_adapter !! "Authorization" = Some ("Token " +:+ target_token)
  /\ ExampleSsot.http_session_verify
       (ExampleSsot.new_api "https://example.com" "t") = true
  /\ ExampleSsot.http_session_verify ExampleSsot.init_api = false.
Proof.
  cbv zeta. split; [reflexivity|]. split; [eexists; reflexivity|].
  split; [eexists; reflexivity|]. repeat split; reflexivity.
Qed.

End DataTargetProperties.

(** ** [jobs/get_version.py] *)

Module GetVersionProperties.
Import GetVersion.

Lemma journal_add_add es1 es2 w :
  journal_add es2 (journal_add es1 w) = journal_add (es1 ++ es2) w.
Proof. unfold journal_add. simpl. rewrite app_assoc. reflexivity. Qed.

Lemma journal_add_same_database es w : same_database w (journal_add es w).
Proof. repeat split. Qed.

Lemma same_database_trans w1 w2 w3 :
  same_database w1 w2 -> same_database w2 w3 -> same_database w1 w3.
Proof.
  unfold same_database. intros (?&?&?&?&?&?) (?&?&?&?&?&?).
  repeat split; congruence.
Qed.

Lemma pinged_journal_add es w :
  pinged (journal_add es w)
  = pinged w ++ omap (fun e => match e with Pinged a => Some a | _ => None end) es.
Proof. unfold pinged, journal_add. simpl. apply omap_app. Qed.

Lemma pinged_logged level m w :
  pinged (journal_add [Logged level m] w) = pinged w.
Proof. rewrite pinged_journal_add. simpl. apply app_nil_r. Qed.

Lemma print_info m w :
  print_status "info" m w = (Ok tt, journal_add [Logged "info" m] w).
Proof. reflexivity. Qed.

(** *** [__init__] *)

(** Case analysis on the secrets the goal looks up in [w]. *)
Lemma secrets_journal_add es w : secrets (journal_add es w) = secrets w.
Proof. reflexivity. Qed.

Ltac secrets_cases w :=
  repeat (simpl; rewrite ?secrets_journal_add;
          try match goal with
              | H : secrets _ = secrets w |- _ => rewrite !H
              end;
          match goal with
          | |- context [secrets w !! ?k] => destruct (secrets w !! k)
          end);
  simpl.

(** [__init__] writes its one log line and nothing else, whether or not
    it raises. *)
Lemma init_state dev w :
  snd (OnboardVersion_init dev w) = journal_add [Logged "info" greeting] w.
Proof.
  unfold OnboardVersion_init, bind. rewrite print_info. unfold lift.
  destruct (platform dev) as [p|]; [|reflexivity].
  destruct (negb _); [reflexivity|].
  destruct (primary_ip dev) as [h|]; [|reflexivity].
  unfold secret_value. secrets_cases w; reflexivity.
Qed.

(** What [__init__] returns or raises depends on the device and the
    stored secrets only. *)
Lemma init_result dev w w2 :
  secrets w2 = secrets w ->
  fst (OnboardVersion_init dev w2) = fst (OnboardVersion_init dev w).
Proof.
  intros Hs. unfold OnboardVersion_init, bind. rewrite !print_info. unfold lift.
  destruct (platform dev) as [p|]; [|reflexivity].
  destruct (negb _); [reflexivity|].
  destruct (primary_ip dev) as [h|]; [|reflexivity].
  unfold secret_value. secrets_cases w; reflexivity.
Qed.

Lemma init_ok dev w task w' :
  OnboardVersion_init dev w = (Ok task, w') ->
  device task = dev
  /\ primary_ip dev = Some (ip (device_info task))
  /\ platform_name task ∈ supported_drivers
  /\ w' = journal_add [Logged "info" greeting] w.
Proof.
  intros H. pose proof (init_state dev w) as Hst. rewrite H in Hst. simpl in Hst.
  revert H. unfold OnboardVersion_init, bind. rewrite print_info. unfold lift.
  destruct (platform dev) as [p|]; [|discriminate].
  destruct (bool_decide (network_driver p ∈ supported_drivers)) eqn:Hp;
    simpl; [|discriminate].
  apply bool_decide_eq_true in Hp.
  destruct (primary_ip dev) as [h|]; [|discriminate].
  unfold secret_value. secrets_cases w; try discriminate.
  intros H. inversion H; subst. simpl. auto.
Qed.

Lemma init_unsupported dev w p :
  platform dev = Some p ->
  network_driver p ∉ supported_drivers ->
  OnboardVersion_init dev w
  = (Raise (Exception ("Device " +:+ device_name dev +:+ " with platform "
                       +:+ network_driver p +:+ " is not supported")),
     journal_add [Logged "info" greeting] w).
Proof.
  intros Hp Hn. unfold OnboardVersion_init, bind. rewrite print_info.
  unfold lift. rewrite Hp. rewrite bool_decide_eq_false_2 by exact Hn.
  reflexivity.
Qed.

Section Collector.

Variable ping : string -> Z.
Variable session_output : device_info_t -> option string -> result string.
Variable clean_software : SoftwareLCM -> result unit.
Variable clean_association : RelationshipAssociation -> result unit.

Local Abbreviation get_version := (get_version ping session_output).
Local Abbreviation import_to_nautobot := (import_to_nautobot clean_software).
Local Abbreviation assign_to_device := (assign_to_device clean_association).
Local Abbreviation record_version :=
  (record_version clean_software clean_association).
Local Abbreviation execute :=
  (execute ping session_output clean_software clean_association).
Local Abbreviation onboard :=
  (onboard ping session_output clean_software clean_association).
Local Abbreviation run :=
  (run ping session_output clean_software clean_association).
Local Abbreviation failure := (failure ping session_output).

(** *** [get_version] and [parse_version] *)

Lemma get_version_run self w :
  let a := ip (device_info self) in
  let command := show_version_commands !! platform_name self in
  let lines := [Logged "info" ("Device name: " +:+ device_name (device self));
                Logged "info" ("Device IP: " +:+ a);
                Logged "info" ("Device platform: " +:+ device_type (device_info self));
                Pinged a] in
  get_version self w =
  if negb (ping a =? 0)
  then (Raise (Exception ("Device with IP " +:+ a +:+ " is unreachable")),
        journal_add lines w)
  else (out <~r session_output (device_info self) command ;;
        Ok (with_raw_version self out),
        journal_add (lines ++ [Session (device_info self) command]) w).
Proof.
  cbv zeta. unfold GetVersion.get_version, bind. rewrite !print_info.
  unfold record_event. rewrite !journal_add_add. simpl.
  destruct (negb _); [reflexivity|].
  rewrite journal_add_add. unfold lift. simpl.
  destruct (session_output _ _); reflexivity.
Qed.

Lemma parse_version_run self w :
  parse_version self w =
  match patterns !! platform_name self, raw_version self with
  | Some lit, Some raw =>
      match re_search lit raw with
      | Some g =>
          (Ok (with_parsed_version self (strip_comma g)),
           journal_add [Logged "info" ("Device software version: "
                                       +:+ strip_comma g)] w)
      | None =>
          (Raise (Exception
                    ("Could not parse, pattern not found in the input string: "
                     +:+ lit +:+ "(\S+)")), w)
      end
  | _, _ => (Raise TypeError, w)
  end.
Proof.
  unfold parse_version, bind, lift.
  destruct (patterns !! platform_name self) as [lit|]; [|reflexivity].
  destruct (raw_version self) as [raw|]; [|reflexivity].
  destruct (re_search lit raw); reflexivity.
Qed.

Lemma get_version_ok self w self1 w1 :
  get_version self w = (Ok self1, w1) ->
  same_database w w1
  /\ pinged w1 = pinged w ++ [ip (device_info self)]
  /\ device self1 = device self
  /\ parsed_version self1 = parsed_version self
  /\ platform_name self1 = platform_name self.
Proof.
  rewrite get_version_run. cbv zeta.
  destruct (negb _); [discriminate|].
  destruct (session_output _ _) as [out|e]; simpl; [|discriminate].
  intros H. inversion H; subst. split; [apply journal_add_same_database|].
  split; [rewrite pinged_journal_add; reflexivity|]. auto.
Qed.

Lemma get_version_raises self w e w1 :
  get_version self w = (Raise e, w1) ->
  same_database w w1
  /\ pinged w1 = pinged w ++ [ip (device_info self)].
Proof.
  rewrite get_version_run. cbv zeta.
  destruct (negb _).
  - intros H. inversion H; subst. split; [apply journal_add_same_database|].
    rewrite pinged_journal_add. reflexivity.
  - destruct (session_output _ _) as [out|e']; simpl; [discriminate|].
    intros H. inversion H; subst. split; [apply journal_add_same_database|].
    rewrite pinged_journal_add. reflexivity.
Qed.

Lemma parse_version_any self w r w1 :
  parse_version self w = (r, w1) ->
  same_database w w1 /\ pinged w1 = pinged w
  /\ forall self1, r = Ok self1 ->
       device self1 = device self
       /\ exists v, parsed_version self1 = Some v.
Proof.
  rewrite parse_version_run.
  destruct (patterns !! platform_name self) as [lit|];
    [destruct (raw_version self) as [raw|];
     [destruct (re_search lit raw) as [g|]|]|];
    intros H; inversion H; subst;
    (split; [try apply journal_add_same_database; repeat split|]);
    (split; [try rewrite pinged_journal_add; simpl; rewrite ?app_nil_r; reflexivity|]);
    intros self1 H1; inversion H1; subst; simpl; eauto.
Qed.


(** *** The recording step *)

Lemma import_run self w v :
  parsed_version self = Some v ->
  import_to_nautobot self w =
  match software_with_version v w with
  | [] =>
      let row := {| software_id := next_pk w; version := v;
                    device_platform := platform (device self) |} in
      match clean_software row with
      | Raise e => (Raise e, w)
      | Ok _ =>
          (Ok (with_nautobot_software self row),
           journal_add [Logged "info" ("Created software version " +:+ v
                                       +:+ " in the database.")]
                       (insert_software row w))
      end
  | [sw] =>
      (Ok (with_nautobot_software self sw),
       journal_add [Logged "info" ("Software version " +:+ version sw
                                   +:+ " exists in the database.")] w)
  | _ :: _ :: _ => (Raise MultipleObjectsReturned, w)
  end.
Proof.
  intros Hv. unfold GetVersion.import_to_nautobot. rewrite Hv.
  destruct (software_with_version v w) as [|sw [|sw' rows]].
  - unfold bind, save_software. cbv zeta.
    destruct (clean_software _); reflexivity.
  - reflexivity.
  - reflexivity.
Qed.

Lemma assign_run self w :
  assign_to_device self w =
  match objects_get (filter (fun r => label r = "Software on Device")
                            (relationships w)) with
  | Raise e => (Raise e, w)
  | Ok rel =>
      match nautobot_software self with
      | None => (Raise AttributeError, w)
      | Some sw =>
          match associations_of (relationship_id rel) (software_id sw)
                                (device_id (device self)) w with
          | _ :: _ =>
              (Ok tt,
               journal_add [Logged "info"
                 ("Relationship " +:+ device_name (device self) +:+ " <-> "
                  +:+ version sw +:+ " exists.")] w)
          | [] =>
              match objects_get (filter (fun c => model c = "softwarelcm")
                                        (content_types w)) with
              | Raise e => (Raise e, w)
              | Ok source_ct =>
                  match objects_get (filter (fun c => model c = "device")
                                            (content_types w)) with
                  | Raise e => (Raise e, w)
                  | Ok dest_ct =>
                      let row :=
                        {| association_id := next_pk w;
                           relationship := relationship_id rel;
                           source_type := content_type_id source_ct;
                           source_id := software_id sw;
                           destination_type := content_type_id dest_ct;
                           destination_id := device_id (device self) |} in
                      match clean_association row with
                      | Raise e => (Raise e, w)
                      | Ok _ =>
                          (Ok tt,
                           journal_add [Logged "info"
                             ("Created " +:+ device_name (device self)
                              +:+ " <-> " +:+ version sw +:+ " relationship.")]
                             (insert_association row w))
                      end
                  end
              end
          end
      end
  end.
Proof.
  unfold GetVersion.assign_to_device, bind, lift.
  destruct (objects_get (filter _ (relationships w))) as [rel|e]; [|reflexivity].
  destruct (nautobot_software self) as [sw|]; [|reflexivity].
  destruct (associations_of _ _ _ w) as [|a rows]; [|reflexivity].
  destruct (objects_get (filter _ (content_types w))) as [sct|e]; [|reflexivity].
  destruct (objects_get (filter _ (content_types w))) as [dct|e]; [|reflexivity].
  unfold save_association. cbv zeta.
  destruct (clean_association _); reflexivity.
Qed.

(** A successful import leaves exactly the reused or the new row as the
    one row with that version. *)
Lemma import_ok self w v self1 w1 :
  parsed_version self = Some v ->
  import_to_nautobot self w = (Ok self1, w1) ->
  exists sw,
    self1 = with_nautobot_software self sw
    /\ software_with_version v w1 = [sw]
    /\ ((software_with_version v w = [sw] /\ same_database w w1)
        \/ (software_with_version v w = []
            /\ software w1 = software w ++ [sw]
            /\ software_id sw = next_pk w))
    /\ relationships w1 = relationships w
    /\ content_types w1 = content_types w
    /\ associations w1 = associations w
    /\ pinged w1 = pinged w.
Proof.
  intros Hv. rewrite (import_run _ _ _ Hv).
  destruct (software_with_version v w) as [|sw [|sw' rows]] eqn:Hrows.
  - cbv zeta. destruct (clean_software _); [|discriminate].
    intros H. inversion H; subst. eexists. split; [reflexivity|].
    split.
    { unfold software_with_version in *. simpl. rewrite filter_app, Hrows.
      simpl. rewrite filter_cons_True by reflexivity. reflexivity. }
    split; [right; simpl; auto|]. repeat split. rewrite pinged_logged; reflexivity.
  - intros H. inversion H; subst. exists sw. split; [reflexivity|].
    split; [exact Hrows|]. split; [left; split; [reflexivity|repeat split]|].
    repeat split. rewrite pinged_logged; reflexivity.
  - discriminate.
Qed.

(** A successful assignment leaves an association of the software with
    the device, created only when there was none. *)
Lemma assign_ok self w w1 :
  assign_to_device self w = (Ok tt, w1) ->
  exists rel sw,
    objects_get (filter (fun r => label r = "Software on Device")
                        (relationships w)) = Ok rel
    /\ nautobot_software self = Some sw
    /\ associations_of (relationship_id rel) (software_id sw)
                       (device_id (device self)) w1 <> []
    /\ ((associations_of (relationship_id rel) (software_id sw)
                         (device_id (device self)) w <> []
         /\ same_database w w1)
        \/ (associations_of (relationship_id rel) (software_id sw)
                            (device_id (device self)) w = []
            /\ exists row,
                 associations w1 = associations w ++ [row]
                 /\ relationship row = relationship_id rel
                 /\ source_id row = software_id sw
                 /\ destination_id row = device_id (device self)))
    /\ software w1 = software w
    /\ relationships w1 = relationships w
    /\ pinged w1 = pinged w.
Proof.
  rewrite assign_run.
  destruct (objects_get (filter _ (relationships w))) as [rel|e]; [|discriminate].
  destruct (nautobot_software self) as [sw|]; [|discriminate].
  destruct (associations_of _ _ _ w) as [|a rows] eqn:Hrows.
  - destruct (objects_get (filter _ (content_types w))) as [sct|e]; [|discriminate].
    destruct (objects_get (filter _ (content_types w))) as [dct|e]; [|discriminate].
    cbv zeta. destruct (clean_association _); [|discriminate].
    intros H. inversion H; subst. exists rel, sw.
    split; [reflexivity|]. split; [reflexivity|].
    assert (Hnew : associations_of (relationship_id rel) (software_id sw)
                     (device_id (device self))
                     (journal_add
                        [Logged "info"
                           ("Created " +:+ device_name (device self) +:+ " <-> "
                            +:+ version sw +:+ " relationship.")]
                        (insert_association
                           {| association_id := next_pk w;
                              relationship := relationship_id rel;
                              source_type := content_type_id sct;
                              source_id := software_id sw;
                              destination_type := content_type_id dct;
                              destination_id := device_id (device self) |} w))
                   <> []).
    { unfold associations_of in *. simpl. rewrite filter_app, Hrows. simpl.
      rewrite filter_cons_True by (simpl; auto). discriminate. }
    split; [exact Hnew|]. split; [|repeat split; rewrite pinged_logged; reflexivity].
    right. split; [exact Hrows|]. eexists. split; [reflexivity|]. simpl. auto.
  - intros H. inversion H; subst. exists rel, sw.
    split; [reflexivity|]. split; [reflexivity|].
    split; [unfold associations_of in *; simpl; rewrite Hrows; discriminate|].
    split; [left; split; [rewrite Hrows; discriminate|repeat split]|].
    repeat split; rewrite pinged_logged; reflexivity.
Qed.

(** What a successful recording leaves behind: one row with the version,
    the relationship found, and an association of the two with the
    device. *)
Lemma record_ok self v w w1 :
  parsed_version self = Some v ->
  record_version self w = (Ok tt, w1) ->
  exists sw rel,
    software_with_version v w1 = [sw]
    /\ objects_get (filter (fun r => label r = "Software on Device")
                           (relationships w1)) = Ok rel
    /\ associations_of (relationship_id rel) (software_id sw)
                       (device_id (device self)) w1 <> []
    /\ ((software_with_version v w = [sw] /\ software w1 = software w)
        \/ (software_with_version v w = [] /\ software w1 = software w ++ [sw]))
    /\ (associations w1 = associations w
        \/ exists row,
             associations w1 = associations w ++ [row]
             /\ associations_of (relationship row) (source_id row)
                                (destination_id row) w = []).
Proof.
  intros Hv Hrun. unfold GetVersion.record_version in Hrun.
  apply bind_ok in Hrun as (self1 & wa & Himp & Hass).
  apply (import_ok _ _ _ _ _ Hv) in Himp
    as (sw & -> & Hone & Hcase & Hrel & Hct & Hassoc & _).
  apply assign_ok in Hass
    as (rel & sw' & Hget & Hsw & Hthere & Hcase2 & Hsoft & Hrel2 & _).
  simpl in Hsw. inversion Hsw; subst sw'. simpl in *.
  exists sw, rel. split; [|split; [|split; [|split]]].
  - unfold software_with_version in *. rewrite Hsoft. exact Hone.
  - rewrite Hrel2. exact Hget.
  - exact Hthere.
  - destruct Hcase as [[Hsome (_ & Hs & _)]|(Hnil & Hs & _)].
    + left. split; [exact Hsome|]. rewrite Hsoft. exact Hs.
    + right. split; [exact Hnil|]. rewrite Hsoft. exact Hs.
  - destruct Hcase2 as [[_ (_ & _ & _ & _ & Ha & _)]|(Hnil & row & Ha & Hr & Hs & Hd)].
    + left. rewrite Ha. exact Hassoc.
    + right. exists row. split; [rewrite Ha, Hassoc; reflexivity|].
      rewrite Hr, Hs, Hd. unfold associations_of in *. rewrite <- Hassoc.
      exact Hnil.
Qed.

(** After a successful recording, recording for the same device and
    version in any world with the same tables succeeds and leaves the
    tables as they are. *)
Lemma record_again self self2 v w w1 w1' :
  parsed_version self = Some v ->
  record_version self w = (Ok tt, w1) ->
  device self2 = device self ->
  parsed_version self2 = Some v ->
  same_database w1 w1' ->
  exists w2, record_version self2 w1' = (Ok tt, w2) /\ same_database w1' w2.
Proof.
  intros Hv Hrun Hdev Hv2 (Hsec & Hso & Hre & Hco & Has & Hnp).
  destruct (record_ok _ _ _ _ Hv Hrun) as (sw & rel & Hone & Hget & Hthere & _).
  unfold GetVersion.record_version, bind.
  rewrite (import_run self2 w1' v Hv2).
  unfold software_with_version in *. rewrite Hso, Hone.
  rewrite assign_run. simpl.
  unfold associations_of in *. simpl. rewrite Hre, Hget, Has, Hdev.
  destruct (filter _ (associations w1)) as [|a rows] eqn:Hrows;
    [contradiction|].
  eexists. split; [reflexivity|].
  eapply same_database_trans; apply journal_add_same_database.
Qed.


(** *** The loop of [run] *)

(** A device that is onboarded without an exception was pinged once, at
    its primary address. *)
Lemma onboard_ok dev w w1 :
  onboard dev w = (Ok tt, w1) ->
  exists h, primary_ip dev = Some h /\ pinged w1 = pinged w ++ [h].
Proof.
  unfold GetVersion.onboard. intros H.
  apply bind_ok in H as (task & wa & Hinit & Hexec).
  apply init_ok in Hinit as (Hdev & Hip & _ & ->).
  unfold GetVersion.execute in Hexec.
  apply bind_ok in Hexec as (t1 & wb & Hg & Hexec).
  apply bind_ok in Hexec as (t2 & wc & Hp & Hexec).
  apply bind_ok in Hexec as (t3 & wd & Hi & Ha).
  apply get_version_ok in Hg as (_ & Hpb & _).
  apply parse_version_any in Hp as (_ & Hpc & Hq).
  destruct (Hq t2 eq_refl) as (_ & v & Hv).
  apply (import_ok _ _ _ _ _ Hv) in Hi as (sw & _ & _ & _ & _ & _ & _ & Hpd).
  apply assign_ok in Ha as (rel & sw' & _ & _ & _ & _ & _ & _ & Hpe).
  exists (ip (device_info task)). split; [exact Hip|].
  rewrite Hpe, Hpd, Hpc, Hpb, pinged_logged. reflexivity.
Qed.

(** The devices of a run that ends without an exception were visited
    one after another in the order given. *)
Lemma run_ok devices : forall w w1,
  run devices w = (Ok tt, w1) ->
  pinged w1 = pinged w ++ omap primary_ip devices.
Proof.
  induction devices as [|dev devices IH]; intros w w1 H; simpl in H.
  - inversion H; subst. simpl. rewrite app_nil_r. reflexivity.
  - apply bind_ok in H as ([] & wa & Hdev & Hrest).
    apply onboard_ok in Hdev as (h & Hip & Hpa).
    apply IH in Hrest. simpl. rewrite Hip, Hrest, Hpa, <- app_assoc.
    reflexivity.
Qed.

(** *** Running the collector twice *)

(** [get_version] and [parse_version] do in any world what they do in
    one: the same result, and the same lines added to the journal. *)
Lemma get_version_anywhere self w w' r w1 :
  get_version self w = (r, w1) ->
  exists es, w1 = journal_add es w
             /\ get_version self w' = (r, journal_add es w').
Proof.
  rewrite !get_version_run. cbv zeta.
  destruct (negb _); intros H; inversion H; subst; eexists; split; reflexivity.
Qed.

Lemma parse_version_anywhere self w w' r w1 :
  parse_version self w = (r, w1) ->
  exists es, w1 = journal_add es w
             /\ parse_version self w' = (r, journal_add es w').
Proof.
  assert (Hnil : forall x, x = journal_add [] x)
    by (intros x; destruct x; unfold journal_add; simpl;
        rewrite app_nil_r; reflexivity).
  rewrite !parse_version_run.
  destruct (patterns !! platform_name self) as [lit|];
    [destruct (raw_version self) as [raw|];
     [destruct (re_search lit raw) as [g|]|]|];
    intros H; inversion H; subst;
    first [ eexists; split; reflexivity
          | exists []; rewrite <- !Hnil; split; reflexivity ].
Qed.

Lemma import_secrets self w r w1 :
  import_to_nautobot self w = (r, w1) -> secrets w1 = secrets w.
Proof.
  destruct (parsed_version self) as [v|] eqn:Hv.
  - rewrite (import_run _ _ _ Hv).
    destruct (software_with_version v w) as [|sw [|sw' rows]];
      [cbv zeta; destruct (clean_software _)| |];
      intros H; inversion H; reflexivity.
  - unfold GetVersion.import_to_nautobot. rewrite Hv.
    intros H. inversion H. reflexivity.
Qed.

Lemma assign_secrets self w r w1 :
  assign_to_device self w = (r, w1) -> secrets w1 = secrets w.
Proof.
  rewrite assign_run.
  destruct (objects_get (filter _ (relationships w))) as [rel|e];
    [|intros H; inversion H; reflexivity].
  destruct (nautobot_software self) as [sw|];
    [|intros H; inversion H; reflexivity].
  destruct (associations_of _ _ _ w) as [|a rows];
    [|intros H; inversion H; reflexivity].
  destruct (objects_get (filter _ (content_types w))) as [sct|e];
    [|intros H; inversion H; reflexivity].
  destruct (objects_get (filter _ (content_types w))) as [dct|e];
    [|intros H; inversion H; reflexivity].
  cbv zeta. destruct (clean_association _);
    intros H; inversion H; reflexivity.
Qed.

Lemma record_version_secrets self w r w1 :
  record_version self w = (r, w1) -> secrets w1 = secrets w.
Proof.
  unfold GetVersion.record_version, bind.
  destruct (import_to_nautobot self w) as [[self1|e] wa] eqn:Hi.
  - intros Ha. apply assign_secrets in Ha. apply import_secrets in Hi.
    congruence.
  - intros H. inversion H; subst. apply import_secrets in Hi. exact Hi.
Qed.

(** X21: a device onboarded without an exception can be onboarded again,
    and the second time nothing is added to any table. *)
Lemma onboard_again dev w w1 :
  onboard dev w = (Ok tt, w1) ->
  exists w2, onboard dev w1 = (Ok tt, w2) /\ same_database w1 w2.
Proof.
  unfold GetVersion.onboard. intros H.
  apply bind_ok in H as (task & wa & Hinit & Hexec).
  pose proof (init_ok _ _ _ _ Hinit) as (Hdev & _ & _ & ->).
  unfold GetVersion.execute in Hexec.
  apply bind_ok in Hexec as (t1 & wb & Hg & Hexec).
  apply bind_ok in Hexec as (t2 & wc & Hp & Hrec).
  change (record_version t2 wc = (Ok tt, w1)) in Hrec.
  destruct (parse_version_any _ _ _ _ Hp) as (_ & _ & Hq).
  destruct (Hq t2 eq_refl) as (_ & v & Hv).
  assert (Hsecrets : secrets w1 = secrets w).
  { rewrite (record_version_secrets _ _ _ _ Hrec).
    destruct (get_version_anywhere _ _ w1 _ _ Hg) as (es1 & -> & _).
    destruct (parse_version_anywhere _ _ w1 _ _ Hp) as (es2 & -> & _).
    reflexivity. }
  assert (Hinit2 : OnboardVersion_init dev w1
                   = (Ok task, journal_add [Logged "info" greeting] w1)).
  { pose proof (init_state dev w1) as Hs.
    pose proof (init_result dev w w1 Hsecrets) as Hr.
    rewrite Hinit in Hr. simpl in Hr.
    destruct (OnboardVersion_init dev w1) as [r' w'].
    simpl in Hs, Hr. subst. reflexivity. }
  destruct (get_version_anywhere _ _ (journal_add [Logged "info" greeting] w1)
              _ _ Hg) as (es1 & _ & Hg2).
  destruct (parse_version_anywhere _ _
              (journal_add es1 (journal_add [Logged "info" greeting] w1))
              _ _ Hp) as (es2 & _ & Hp2).
  destruct (record_again t2 t2 v wc w1
              (journal_add es2
                 (journal_add es1 (journal_add [Logged "info" greeting] w1)))
              Hv Hrec eq_refl Hv)
    as (w2 & Hrec2 & Hsame).
  { eapply same_database_trans; [|apply journal_add_same_database].
    eapply same_database_trans; apply journal_add_same_database. }
  exists w2. split.
  - rewrite (bind_step _ _ _ _ _ Hinit2). unfold GetVersion.execute.
    rewrite (bind_step _ _ _ _ _ Hg2). rewrite (bind_step _ _ _ _ _ Hp2).
    exact Hrec2.
  - eapply same_database_trans; [|exact Hsame].
    eapply same_database_trans; [|apply journal_add_same_database].
    eapply same_database_trans; apply journal_add_same_database.
Qed.

(** Each of the three failures makes the loop body raise, before
    anything is written to the database. *)
Lemma failure_raises dev w :
  failure dev w ->
  exists msg w2,
    onboard dev w = (Raise (Exception msg), w2)
    /\ same_database w w2
    /\ (pinged w2 = pinged w
        \/ exists h, primary_ip dev = Some h /\ pinged w2 = pinged w ++ [h]).
Proof.
  intros [p Hp Hn | task w' Hinit Hping | task w' lit out Hinit Hping Hout Hlit Hre].
  - eexists _, _. split.
    + unfold GetVersion.onboard. apply bind_raise.
      apply init_unsupported; eassumption.
    + split; [apply journal_add_same_database|].
      left. apply pinged_logged.
  - pose proof (init_ok _ _ _ _ Hinit) as (_ & Hip & _ & ->).
    eexists _, _. split.
    + unfold GetVersion.onboard. rewrite (bind_step _ _ _ _ _ Hinit).
      unfold GetVersion.execute. apply bind_raise.
      rewrite get_version_run. cbv zeta.
      apply Z.eqb_neq in Hping. rewrite Hping. reflexivity.
    + split.
      * eapply same_database_trans; apply journal_add_same_database.
      * right. exists (ip (device_info task)). split; [exact Hip|].
        rewrite pinged_journal_add, pinged_logged. reflexivity.
  - pose proof (init_ok _ _ _ _ Hinit) as (_ & Hip & _ & ->).
    eexists _, _. split.
    + unfold GetVersion.onboard. rewrite (bind_step _ _ _ _ _ Hinit).
      unfold GetVersion.execute.
      erewrite bind_step;
        [|rewrite get_version_run; cbv zeta; rewrite Hping, Hout; reflexivity].
      apply bind_raise. rewrite parse_version_run. simpl.
      rewrite Hlit, Hre. reflexivity.
    + split.
      * eapply same_database_trans; apply journal_add_same_database.
      * right. exists (ip (device_info task)). split; [exact Hip|].
        rewrite pinged_journal_add, pinged_logged. reflexivity.
Qed.

(** C10: [run] takes the devices one after another in the order
    selected, and a device with an unsupported platform, with an address
    that does not answer the ping, or with output in which the pattern
    is not found makes its iteration raise an [Exception], which ends
    the run there: the devices before it have been visited in order,
    nothing is recorded for the failing one, and none of the devices
    after it is touched. *)
Theorem C10_run_is_sequential_and_a_failure_ends_it pre dev post w w1 :
  run pre w = (Ok tt, w1) ->
  failure dev w1 ->
  pinged w1 = pinged w ++ omap primary_ip pre
  /\ exists msg w2,
       onboard dev w1 = (Raise (Exception msg), w2)
       /\ run (pre ++ dev :: post) w = (Raise (Exception msg), w2)
       /\ same_database w1 w2
       /\ (pinged w2 = pinged w1
           \/ exists h, primary_ip dev = Some h /\ pinged w2 = pinged w1 ++ [h]).
Proof.
  intros Hpre Hfail. split; [apply run_ok; exact Hpre|].
  destruct (failure_raises dev w1 Hfail) as (msg & w2 & Hdev & Hdb & Hping).
  exists msg, w2. split; [exact Hdev|]. split; [|split; assumption].
  unfold GetVersion.run. eapply for_each_raises; eassumption.
Qed.

End Collector.

(** *** Worked examples in the lab *)


Lemma C10_run_is_sequential_witness :
  let go := run lab_ping lab_output accept_software accept_association in
  let w1 := snd (go [router1] lab) in
  go [router1] lab = (Ok tt, w1)
  /\ pinged w1 = pinged lab ++ omap primary_ip [router1]
  /\ exists msg w2,
       onboard lab_ping lab_output accept_software accept_association router3 w1
       = (Raise (Exception msg), w2)
       /\ go ([router1] ++ router3 :: [switch2; router4]) lab
          = (Raise (Exception msg), w2)
       /\ same_database w1 w2
       /\ (pinged w2 = pinged w1
           \/ exists h, primary_ip router3 = Some h /\ pinged w2 = pinged w1 ++ [h]).
Proof.
  cbv zeta. split; [vm_compute; reflexivity|].
  apply (C10_run_is_sequential_and_a_failure_ends_it
           lab_ping lab_output accept_software accept_association
           [router1] router3 [switch2; router4] lab).
  - vm_compute. reflexivity.
  - apply (unreachable_address lab_ping lab_output router3 _
             {| device := router3; platform_name := "cisco_ios";
                device_info := {| device_type := "cisco_ios"; ip := "10.0.0.3";
                                  username := "admin"; password := "pw";
                                  secret := "en" |};
                raw_version := None; parsed_version := None;
                nautobot_software := None |}
             (snd (OnboardVersion_init router3
                     (snd (run lab_ping lab_output accept_software
                               accept_association [router1] lab))))).
    + vm_compute. reflexivity.
    + vm_compute. discriminate.
Defined.

(** The three failures, each on its own device. *)
Lemma failures_in_the_lab :
  let go := run lab_ping lab_output accept_software accept_association in
  fst (go [switch2; router1] lab)
  = Raise (Exception "Device switch2 with platform arista_eos is not supported")
  /\ fst (go [router3; router1] lab)
     = Raise (Exception "Device with IP 10.0.0.3 is unreachable")
  /\ fst (go [router4; router1] lab)
     = Raise (Exception
         "Could not parse, pattern not found in the input string: Version (\S+)")
  /\ software (snd (go [router4; router1] lab)) = []
  /\ pinged (snd (go [router1; router4; router3] lab)) = ["10.0.0.1"; "10.0.0.4"].
Proof. cbv zeta. repeat split; vm_compute; reflexivity. Qed.

End GetVersionProperties.

(** ** A VLAN without a group, in both jobs *)

Module DefaultProperties.

Module DT := ExampleSsotDataTarget.
Module DS := ExampleSsot.
Module FW := Framework.

Section Defaults.

Context {V : Validation}.

(** C6: a VLAN with no group (in the data-target job's JSON item the
    key is missing or holds [null] or another false value; on the
    data-source job's client record the attribute is [None]) never fails
    a remote load for that: the group field is resolved to [None] and the
    constructor is called as for any other VLAN.  [None] is the default
    the model declares, and the local-store side of either job resolves a
    VLAN without a group to it as well.  So the two sides give the VLAN
    the same identity key, the diff finds it on both sides, and it
    classifies it by its attributes alone: as unchanged when they agree,
    and otherwise as an update that does not list the group. *)
Theorem C6_absent_group_resolves_to_the_same_default
    (d : gmap string value) (nv : DS.nb_vlan) (r : FW.local_vlan) :
  truthy (default VNone (d !! "group")) = false ->
  DS.nb_group_of nv = None ->
  FW.local_group r = None ->
  DT.load_item (VDict d)
    = (v <~r getitem d "vid" ;;
       n <~r getitem d "name" ;;
       de <~r getitem d "description" ;;
       DT.vlan v n (VStr "active") VNone de)
  /\ DS.load_item nv = DS.vlan (DS.nb_vid nv) VNone (DS.nb_description nv)
  /\ (forall t,
        DT.load_item (VDict d) = Ok t ->
        let s := FW.DataTarget.project r in
        DT.vlan_group__name t = DT.default_vlan_group__name
        /\ DT.vlan_group__name s = DT.default_vlan_group__name
        /\ (FW.local_vid r = DT.vid t ->
            FW.local_name r = DT.name t ->
            DT.get_key s = DT.get_key t
            /\ ("vlan_group__name" ∉ FW.DataTarget.differing s t)
            /\ (DT.description s = DT.description t ->
                DT.status__name s = DT.status__name t ->
                FW.DataTarget.differing s t = [])
            /\ forall source target : gmap DT.key DT.VLANModel,
                 source !! DT.get_key s = Some s ->
                 target !! DT.get_key t = Some t ->
                 FW.diff FW.DataTarget.differing source target !! DT.get_key t
                 = Some (match FW.DataTarget.differing s t with
                         | [] => FW.Unchanged
                         | fields => FW.Update fields
                         end)))
  /\ (forall s,
        DS.load_item nv = Ok s ->
        let t := FW.DataSource.project r in
        DS.group__name s = DS.default_group__name
        /\ DS.group__name t = DS.default_group__name
        /\ (FW.local_vid r = DS.vid s ->
            DS.get_key s = DS.get_key t
            /\ ("group__name" ∉ FW.DataSource.differing s t)
            /\ (DS.description s = DS.description t ->
                FW.DataSource.differing s t = [])
            /\ forall source target : gmap DS.key DS.VLANModel,
                 source !! DS.get_key s = Some s ->
                 target !! DS.get_key t = Some t ->
                 FW.diff FW.DataSource.differing source target !! DS.get_key s
                 = Some (match FW.DataSource.differing s t with
                         | [] => FW.Unchanged
                         | fields => FW.Update fields
                         end))).
Proof.
  intros Hd Hnv Hr.
  assert (Hload : DT.load_item (VDict d)
                  = (v <~r getitem d "vid" ;;
                     n <~r getitem d "name" ;;
                     de <~r getitem d "description" ;;
                     DT.vlan v n (VStr "active") VNone de)).
  { unfold DT.load_item, subscript, dict_get, getitem.
    destruct (d !! "vid") as [v|]; [|reflexivity]. simpl.
    destruct (d !! "name") as [n|]; [|reflexivity]. simpl.
    rewrite Hd. reflexivity. }
  assert (Hload2 : DS.load_item nv
                   = DS.vlan (DS.nb_vid nv) VNone (DS.nb_description nv)).
  { unfold DS.load_item. rewrite Hnv. reflexivity. }
  split; [exact Hload|]. split; [exact Hload2|]. split.
  - intros t Ht. cbv zeta. rewrite Hload in Ht.
    assert (Hg : DT.vlan_group__name t = None).
    { unfold rbind in Ht.
      destruct (getitem d "vid"); [|discriminate].
      destruct (getitem d "name"); [|discriminate].
      destruct (getitem d "description"); [|discriminate].
      unfold DT.vlan, rbind in Ht.
      destruct (as_int _ _); [|discriminate].
      destruct (as_str "name" _); [|discriminate].
      simpl in Ht.
      destruct (as_optional_str "description" _); [|discriminate].
      inversion Ht. reflexivity. }
    assert (Hs : DT.vlan_group__name (FW.DataTarget.project r) = None)
      by (unfold FW.DataTarget.project; simpl; rewrite Hr; reflexivity).
    split; [exact Hg|]. split; [exact Hs|].
    intros Hvid Hname.
    assert (Hkey : DT.get_key (FW.DataTarget.project r) = DT.get_key t).
    { unfold DT.get_key. rewrite Hg, Hs. simpl. rewrite Hvid, Hname.
      reflexivity. }
    split; [exact Hkey|]. split; [|split].
    + unfold FW.DataTarget.differing. intros Hin.
      apply list_elem_of_filter in Hin as [_ Hin]. unfold DT._attributes in Hin.
      repeat (apply elem_of_cons in Hin as [Hin|Hin]; [discriminate|]).
      inversion Hin.
    + intros Hde Hst. unfold FW.DataTarget.differing, DT._attributes.
      rewrite !filter_cons, filter_nil.
      unfold FW.DataTarget.same_attribute. simpl.
      rewrite !bool_decide_eq_true_2 by assumption. reflexivity.
    + intros source target Hsrc Htgt. unfold FW.diff.
      rewrite lookup_merge. rewrite <- Hkey at 1. rewrite Hsrc, Htgt.
      reflexivity.
  - intros s Hs. cbv zeta. rewrite Hload2 in Hs.
    assert (Hg : DS.group__name s = None).
    { unfold DS.vlan, rbind in Hs.
      destruct (as_int _ _); [|discriminate].
      simpl in Hs.
      destruct (as_optional_str "description" _); [|discriminate].
      inversion Hs. reflexivity. }
    assert (Ht : DS.group__name (FW.DataSource.project r) = None)
      by (unfold FW.DataSource.project; simpl; rewrite Hr; reflexivity).
    split; [exact Hg|]. split; [exact Ht|].
    intros Hvid.
    assert (Hkey : DS.get_key s = DS.get_key (FW.DataSource.project r)).
    { unfold DS.get_key. rewrite Hg, Ht. simpl. rewrite Hvid. reflexivity. }
    split; [exact Hkey|]. split; [|split].
    + unfold FW.DataSource.differing. intros Hin.
      apply list_elem_of_filter in Hin as [_ Hin]. unfold DS._attributes in Hin.
      repeat (apply elem_of_cons in Hin as [Hin|Hin]; [discriminate|]).
      inversion Hin.
    + intros Hde. unfold FW.DataSource.differing, DS._attributes.
      rewrite !filter_cons, filter_nil.
      unfold FW.DataSource.same_attribute. simpl.
      rewrite !bool_decide_eq_true_2 by assumption. reflexivity.
    + intros source target Hsrc Htgt. unfold FW.diff.
      rewrite lookup_merge. rewrite Hkey at 2. rewrite Hsrc, Htgt.
      reflexivity.
Qed.

End Defaults.

#[local] Existing Instance strict.

(** VLAN 20 without a group: as the remote's JSON item, as the client's
    record and as a row of the local store. *)
Lemma C6_absent_group_witness :
  let d : gmap string value :=
    list_to_map [("id", VInt 2); ("vid", VInt 20); ("name", VStr "voice");
                 ("status", VStr "reserved"); ("group", VNone);
                 ("description", VStr "")] in
  let nv := {| DS.nb_vid := VInt 20; DS.nb_group_of := None;
               DS.nb_description := VStr "" |} in
  let r := {| FW.local_pk := Some "7f2a"; FW.local_vid := 20;
              FW.local_name := "voice"; FW.local_status := "Active";
              FW.local_group := None; FW.local_description := Some "" |} in
  DT.load_item (VDict d)
    = (v <~r getitem d "vid" ;;
       n <~r getitem d "name" ;;
       de <~r getitem d "description" ;;
       DT.vlan v n (VStr "active") VNone de)
  /\ DS.load_item nv = DS.vlan (DS.nb_vid nv) VNone (DS.nb_description nv)
  /\ (forall t,
        DT.load_item (VDict d) = Ok t ->
        let s := FW.DataTarget.project r in
        DT.vlan_group__name t = DT.default_vlan_group__name
        /\ DT.vlan_group__name s = DT.default_vlan_group__name
        /\ (FW.local_vid r = DT.vid t ->
            FW.local_name r = DT.name t ->
            DT.get_key s = DT.get_key t
            /\ ("vlan_group__name" ∉ FW.DataTarget.differing s t)
            /\ (DT.description s = DT.description t ->
                DT.status__name s = DT.status__name t ->
                FW.DataTarget.differing s t = [])
            /\ forall source target : gmap DT.key DT.VLANModel,
                 source !! DT.get_key s = Some s ->
                 target !! DT.get_key t = Some t ->
                 FW.diff FW.DataTarget.differing source target !! DT.get_key t
                 = Some (match FW.DataTarget.differing s t with
                         | [] => FW.Unchanged
                         | fields => FW.Update fields
                         end)))
  /\ (forall s,
        DS.load_item nv = Ok s ->
        let t := FW.DataSource.project r in
        DS.group__name s = DS.default_group__name
        /\ DS.group__name t = DS.default_group__name
        /\ (FW.local_vid r = DS.vid s ->
            DS.get_key s = DS.get_key t
            /\ ("group__name" ∉ FW.DataSource.differing s t)
            /\ (DS.description s = DS.description t ->
                FW.DataSource.differing s t = [])
            /\ forall source target : gmap DS.key DS.VLANModel,
                 source !! DS.get_key s = Some s ->
                 target !! DS.get_key t = Some t ->
                 FW.diff FW.DataSource.differing source target !! DS.get_key s
                 = Some (match FW.DataSource.differing s t with
                         | [] => FW.Unchanged
                         | fields => FW.Update fields
                         end))).
Proof.
  cbv zeta.
  apply (C6_absent_group_resolves_to_the_same_default
           (list_to_map [("id", VInt 2); ("vid", VInt 20); ("name", VStr "voice");
                         ("status", VStr "reserved"); ("group", VNone);
                         ("description", VStr "")])
           {| DS.nb_vid := VInt 20; DS.nb_group_of := None;
              DS.nb_description := VStr "" |}
           {| FW.local_pk := Some "7f2a"; FW.local_vid := 20;
              FW.local_name := "voice"; FW.local_status := "Active";
              FW.local_group := None; FW.local_description := Some "" |});
    reflexivity.
Defined.

(** The two sides of the data-target job for that VLAN, computed: one
    key, found on both sides, and an update of the status alone, since
    the remote side's status is the constant; with the status equal the
    VLAN is unchanged.  Were the group resolved to the empty text on one
    side and to [None] on the other, the keys would differ and the VLAN
    would be a create and a delete instead. *)
Lemma a_vlan_without_a_group_on_both_sides :
  let d : gmap string value :=
    list_to_map [("id", VInt 2); ("vid", VInt 20); ("name", VStr "voice");
                 ("status", VStr "reserved"); ("group", VNone);
                 ("description", VStr "")] in
  let r := {| FW.local_pk := Some "7f2a"; FW.local_vid := 20;
              FW.local_name := "voice"; FW.local_status := "Active";
              FW.local_group := None; FW.local_description := Some "" |} in
  let s := FW.DataTarget.project r in
  let t := {| DT.pk := None; DT.vid := 20; DT.name := "voice";
              DT.status__name := "active"; DT.vlan_group__name := None;
              DT.description := Some "" |} in
  let t' := {| DT.pk := None; DT.vid := 20; DT.name := "voice";
               DT.status__name := "active"; DT.vlan_group__name := Some "";
               DT.description := Some "" |} in
  let lowered := {| FW.local_pk := Some "7f2a"; FW.local_vid := 20;
                    FW.local_name := "voice"; FW.local_status := "active";
                    FW.local_group := None; FW.local_description := Some "" |} in
  DT.load_item (VDict d) = Ok t
  /\ DT.get_key s = (20, "voice", None)
  /\ DT.get_key t = (20, "voice", None)
  /\ FW.diff FW.DataTarget.differing {[ DT.get_key s := s ]} {[ DT.get_key t := t ]}
     = {[ (20, "voice", None) := FW.Update ["status__name"] ]}
  /\ FW.diff FW.DataTarget.differing
       {[ DT.get_key s := FW.DataTarget.project lowered ]} {[ DT.get_key t := t ]}
     = {[ (20, "voice", None) := FW.Unchanged ]}
  /\ FW.diff FW.DataTarget.differing {[ DT.get_key s := s ]} {[ DT.get_key t' := t' ]}
       !! (20, "voice", None) = Some FW.Create
  /\ FW.diff FW.DataTarget.differing {[ DT.get_key s := s ]} {[ DT.get_key t' := t' ]}
       !! (20, "voice", Some "") = Some FW.Delete.
Proof.
  cbv zeta. split; [reflexivity|]. split; [reflexivity|]. split; [reflexivity|].
  split; [|split; [|split]].
  - apply map_eq. intros k. unfold FW.diff. rewrite lookup_merge.
    destruct (decide (k = (20, "voice", None))) as [->|Hne].
    + rewrite !lookup_singleton_eq. reflexivity.
    + rewrite !lookup_singleton_ne
        by (intros Heq; apply Hne; rewrite <- Heq; reflexivity).
      reflexivity.
  - apply map_eq. intros k. unfold FW.diff. rewrite lookup_merge.
    destruct (decide (k = (20, "voice", None))) as [->|Hne].
    + rewrite !lookup_singleton_eq. reflexivity.
    + rewrite !lookup_singleton_ne
        by (intros Heq; apply Hne; rewrite <- Heq; reflexivity).
      reflexivity.
  - unfold FW.diff. rewrite lookup_merge.
    rewrite lookup_singleton_eq, lookup_singleton_ne by discriminate.
    reflexivity.
  - unfold FW.diff. rewrite lookup_merge.
    rewrite lookup_singleton_ne, lookup_singleton_eq by discriminate.
    reflexivity.
Qed.

(** A group that is present is read by its name, in both adapters. *)
Lemma present_group_is_read_by_name :
  ExampleSsotDataTarget.vlan_group__name
    <$> match ExampleSsotDataTarget.load_item
                (ExampleSsotDataTarget.item 1 10 "users"
                   (VDict {[ "name" := VStr "eng" ]})) with
        | Ok x => Some x
        | Raise _ => None
        end = Some (Some "eng")
  /\ ExampleSsot.load_item
       {| ExampleSsot.nb_vid := VInt 10;
          ExampleSsot.nb_group_of := Some {| ExampleSsot.group_name := VStr "eng" |};
          ExampleSsot.nb_description := VNone |}
     = Ok {| ExampleSsot.vid := 10; ExampleSsot.group__name := Some "eng";
             ExampleSsot.description := None |}.
Proof. split; reflexivity. Qed.

End DefaultProperties.

(** * Further properties *)

(** ** More on [jobs/example_ssot_data_target.py] *)

Module DataTargetMore.
Import ExampleSsotDataTarget.

Section Items.

Context {V : Validation}.

Lemma subscript_ok v k x :
  subscript v k = Ok x -> exists d, v = VDict d /\ d !! k = Some x.
Proof.
  destruct v as [| | | | |d]; simpl; try discriminate.
  destruct (d !! k) eqn:E; intros H; inversion H; subst. eauto.
Qed.

(** The record [load] builds holds what the item holds: [vid], [name]
    and [description] are the item's entries of those names as the
    validation of their fields takes them, the group is the [name] of the
    item's [group] when that is a true value and [None] otherwise, and no
    [pk] is set. *)
Lemma load_item_sound item obj :
  load_item item = Ok obj ->
  exists d v n de,
    item = VDict d
    /\ d !! "vid" = Some v /\ as_int "vid" v = Ok (vid obj)
    /\ d !! "name" = Some n /\ as_str "name" n = Ok (name obj)
    /\ d !! "description" = Some de
    /\ as_optional_str "description" de = Ok (description obj)
    /\ (if truthy (default VNone (d !! "group"))
        then exists g gn,
               d !! "group" = Some (VDict g)
               /\ g !! "name" = Some gn
               /\ as_optional_str "vlan_group__name" gn
                  = Ok (vlan_group__name obj)
        else vlan_group__name obj = None)
    /\ status__name obj = "active"
    /\ pk obj = None.
Proof.
  unfold load_item, rbind. intros H.
  destruct (subscript item "vid") as [v|] eqn:Hv; [|discriminate].
  destruct (subscript item "name") as [n|] eqn:Hn; [|discriminate].
  destruct (dict_get item "group") as [c|] eqn:Hc; [|discriminate].
  apply subscript_ok in Hv as (d & -> & Hv).
  apply subscript_ok in Hn as (d' & Hd' & Hn). inversion Hd'; subst d'.
  simpl in Hc. inversion Hc; subst c. clear Hc Hd'.
  exists d, v, n.
  destruct (truthy (default VNone (d !! "group"))) eqn:Ht.
  - destruct (subscript (VDict d) "group") as [grp|] eqn:Hg; [|discriminate].
    destruct (subscript grp "name") as [gn|] eqn:Hgn; [|discriminate].
    destruct (subscript (VDict d) "description") as [dv|] eqn:Hdv; [|discriminate].
    apply subscript_ok in Hg as (d' & Hd' & Hg). inversion Hd'; subst d'.
    apply subscript_ok in Hgn as (g & -> & Hgn).
    apply subscript_ok in Hdv as (d' & Hd'' & Hdv). inversion Hd''; subst d'.
    unfold vlan, rbind in H.
    destruct (as_int "vid" v) as [vz|] eqn:Hvz; [|discriminate].
    destruct (as_str "name" n) as [ns|] eqn:Hns; [|discriminate].
    simpl in H.
    destruct (as_optional_str "vlan_group__name" gn) as [go|] eqn:Hgo; [|discriminate].
    destruct (as_optional_str "description" dv) as [dd|] eqn:Hdd; [|discriminate].
    inversion H; subst obj; simpl.
    exists dv. split; [reflexivity|]. split; [exact Hv|]. split; [reflexivity|].
    split; [exact Hn|]. split; [reflexivity|]. split; [exact Hdv|].
    split; [exact Hdd|]. split; [|split; reflexivity].
    exists g, gn. split; [exact Hg|]. split; [exact Hgn|exact Hgo].
  - destruct (subscript (VDict d) "description") as [dv|] eqn:Hdv; [|discriminate].
    apply subscript_ok in Hdv as (d' & Hd'' & Hdv). inversion Hd''; subst d'.
    unfold vlan, rbind in H.
    destruct (as_int "vid" v) as [vz|] eqn:Hvz; [|discriminate].
    destruct (as_str "name" n) as [ns|] eqn:Hns; [|discriminate].
    simpl in H.
    destruct (as_optional_str "description" dv) as [dd|] eqn:Hdd; [|discriminate].
    inversion H; subst obj; simpl.
    exists dv. split; [reflexivity|]. split; [exact Hv|]. split; [reflexivity|].
    split; [exact Hn|]. split; [reflexivity|]. split; [exact Hdv|].
    split; [exact Hdd|]. repeat split.
Qed.

(** X1: an item gives a record exactly when it is a dict whose [vid],
    [name] and [description] pass the validation of their fields ([int],
    [str] and [Optional[str]]) and, if its [group] is a true value, the
    group is a dict whose [name] passes as [Optional[str]].  The record
    then holds the validated values, the group's [name] (or [None]
    without a group), the fixed status and no [pk].  A [vid] that is an
    [int], a [name] that is text and a [description] that is text or
    [null] are taken as they are, whatever the validation converts. *)
Theorem load_item_reads_the_item item obj :
  (load_item item = Ok obj <->
   exists d v n de,
     item = VDict d
     /\ d !! "vid" = Some v /\ as_int "vid" v = Ok (vid obj)
     /\ d !! "name" = Some n /\ as_str "name" n = Ok (name obj)
     /\ d !! "description" = Some de
     /\ as_optional_str "description" de = Ok (description obj)
     /\ (if truthy (default VNone (d !! "group"))
         then exists g gn,
                d !! "group" = Some (VDict g)
                /\ g !! "name" = Some gn
                /\ as_optional_str "vlan_group__name" gn
                   = Ok (vlan_group__name obj)
         else vlan_group__name obj = None)
     /\ status__name obj = "active"
     /\ pk obj = None)
  /\ (forall field z s,
        as_int field (VInt z) = Ok z
        /\ as_str field (VStr s) = Ok s
        /\ as_optional_str field (VStr s) = Ok (Some s)
        /\ as_optional_str field VNone = Ok None).
Proof.
  split; [|repeat split].
  split; [apply load_item_sound|].
  intros (d & v & n & de & -> & Hv & Hvz & Hn & Hns & Hd & Hdd & Hg & Hs & Hp).
  unfold load_item, subscript, dict_get. rewrite Hv, Hn. simpl.
  destruct obj as [p vz ns s g dd]. simpl in *. subst p s.
  destruct (truthy (default VNone (d !! "group"))).
  - destruct Hg as (gd & gn & Hgd & Hname & Hgo). rewrite Hgd. simpl.
    rewrite Hname, Hd. simpl. unfold vlan. rewrite Hvz, Hns. simpl.
    rewrite Hgo, Hdd. reflexivity.
  - subst g. rewrite Hd. simpl. unfold vlan. rewrite Hvz, Hns. simpl.
    rewrite Hdd. reflexivity.
Qed.

(** A missing entry fails the item with the [KeyError] of the first name
    missing, in the order [vid], [name], [description]; unlike the group,
    an absent [description] is not tolerated.  A value that is not a dict
    fails with [TypeError]. *)
Theorem load_item_missing_entry :
  (forall d, d !! "vid" = None -> load_item (VDict d) = Raise (KeyError "vid"))
  /\ (forall d v, d !! "vid" = Some v -> d !! "name" = None ->
        load_item (VDict d) = Raise (KeyError "name"))
  /\ (forall d v n,
        d !! "vid" = Some v -> d !! "name" = Some n ->
        truthy (default VNone (d !! "group")) = false ->
        d !! "description" = None ->
        load_item (VDict d) = Raise (KeyError "description"))
  /\ (forall item,
        (forall d, item <> VDict d) -> load_item item = Raise TypeError).
Proof.
  split; [|split; [|split]].
  - intros d H. unfold load_item, subscript. rewrite H. reflexivity.
  - intros d v Hv H. unfold load_item, subscript. rewrite Hv, H. reflexivity.
  - intros d v n Hv Hn Hg H. unfold load_item, subscript, dict_get.
    rewrite Hv, Hn. simpl. rewrite Hg, H. reflexivity.
  - intros item H. destruct item; try reflexivity. exfalso. eapply H. reflexivity.
Qed.

Lemma rbind_raise {A B} (r : result A) (k : A -> result B) e :
  rbind r k = Raise e -> r = Raise e \/ exists a, r = Ok a /\ k a = Raise e.
Proof. destruct r; simpl; intros H; [eauto|inversion H; auto]. Qed.

Lemma subscript_error v k e :
  subscript v k = Raise e -> is_http_error e = false.
Proof.
  destruct v as [| | | | |d]; simpl; try (intros H; inversion H; reflexivity).
  destruct (d !! k); intros H; inversion H. reflexivity.
Qed.

Lemma as_int_error f v e :
  as_int f v = Raise e -> is_http_error e = false.
Proof.
  destruct v; simpl; try discriminate;
    destruct (convert_int _); intros H; inversion H; reflexivity.
Qed.

Lemma as_str_error f v e :
  as_str f v = Raise e -> is_http_error e = false.
Proof.
  destruct v; simpl; try discriminate;
    destruct (convert_str _); intros H; inversion H; reflexivity.
Qed.

Lemma as_optional_str_error f v e :
  as_optional_str f v = Raise e -> is_http_error e = false.
Proof.
  destruct v; simpl; try discriminate;
    destruct (convert_str _); intros H; inversion H; reflexivity.
Qed.

(** What fails an item is never an [HTTPError]. *)
Lemma load_item_error item e :
  load_item item = Raise e -> is_http_error e = false.
Proof.
  unfold load_item. intros H.
  apply rbind_raise in H as [H|(v & _ & H)]; [eapply subscript_error; eauto|].
  apply rbind_raise in H as [H|(n & _ & H)]; [eapply subscript_error; eauto|].
  apply rbind_raise in H as [H|(c & _ & H)].
  { destruct item; simpl in H; inversion H; reflexivity. }
  apply rbind_raise in H as [H|(g & _ & H)].
  { destruct (truthy c); [|discriminate].
    apply rbind_raise in H as [H|(grp & _ & H)]; eapply subscript_error; eauto. }
  apply rbind_raise in H as [H|(d & _ & H)]; [eapply subscript_error; eauto|].
  unfold vlan in H.
  apply rbind_raise in H as [H|(vz & _ & H)]; [eapply as_int_error; eauto|].
  apply rbind_raise in H as [H|(ns & _ & H)]; [eapply as_str_error; eauto|].
  apply rbind_raise in H as [H|(ss & _ & H)]; [simpl in H; discriminate|].
  apply rbind_raise in H as [H|(go & _ & H)];
    [eapply as_optional_str_error; eauto|].
  apply rbind_raise in H as [H|(dd & _ & H)];
    [eapply as_optional_str_error; eauto|discriminate].
Qed.

End Items.

Section Remote.

Context {server : Type}.
Variable serve : server -> request -> reply * server.
Variable base_create : gmap string value -> gmap string value -> result VLANModel.
Variable base_update : VLANModel -> gmap string value -> result VLANModel.
Variable base_delete : VLANModel -> result VLANModel.
Context {V : Validation}.

Local Abbreviation delivered := (delivered serve).
Local Abbreviation _get_api_data := (_get_api_data serve).
Local Abbreviation load := (load serve).
Local Abbreviation create := (VLANRemoteModel_create serve base_create).
Local Abbreviation update := (VLANRemoteModel_update serve base_update).
Local Abbreviation remove := (VLANRemoteModel_delete serve base_delete).

(** *** The loop of [load], whatever its outcome *)

Lemma load_one_any item (st st' : state server) r :
  load_one item st = (r, st') ->
  remote st' = remote st /\ wire st' = wire st
  /\ forall e, r = Raise e -> is_http_error e = false.
Proof.
  unfold load_one, bind, lift.
  destruct (load_item item) as [obj|e0] eqn:Hi.
  - unfold add. destruct (store st !! get_key obj);
      intros H; inversion H; subst; simpl; repeat split;
      intros e He; inversion He; reflexivity.
  - intros H. inversion H; subst. repeat split.
    intros e He. inversion He; subst. eapply load_item_error; eauto.
Qed.

Lemma load_loop_any items : forall (st st' : state server) r,
  for_each load_one items st = (r, st') ->
  remote st' = remote st /\ wire st' = wire st
  /\ forall e, r = Raise e -> is_http_error e = false.
Proof.
  induction items as [|item items IH]; intros st st' r H; simpl in H.
  - inversion H; subst. repeat split. intros e He. discriminate.
  - unfold bind in H.
    destruct (load_one item st) as [[[]|e0] st1] eqn:H1.
    + apply load_one_any in H1 as (Hr & Hw & _).
      apply IH in H as (Hr2 & Hw2 & He). repeat split; congruence || auto.
    + inversion H; subst. apply load_one_any in H1 as (Hr & Hw & He).
      repeat split; auto.
Qed.

Lemma load_unfold self (st : state server) :
  load self st =
  match fst (_get_api_data self st) with
  | Ok results =>
      match iterate results with
      | Ok items => for_each load_one items (delivered (get_request self) st)
      | Raise e => (Raise e, delivered (get_request self) st)
      end
  | Raise e => (Raise e, delivered (get_request self) st)
  end.
Proof.
  unfold ExampleSsotDataTarget.load, bind, lift.
  rewrite <- (DataTargetProperties.get_once serve self st).
  destruct (_get_api_data self st) as [[results|e] st1]; simpl; [|reflexivity].
  destruct (iterate results); reflexivity.
Qed.

Lemma get_api_data_error self (st : state server) r e :
  fst (serve (remote st) (get_request self)) = Answer r ->
  fst (_get_api_data self st) = Raise e ->
  is_http_error e = false.
Proof.
  intros Hr. unfold ExampleSsotDataTarget._get_api_data, bind.
  rewrite DataTargetProperties.send_delivers, Hr. unfold lift.
  destruct (json r) as [data|e0] eqn:Hj; simpl.
  - destruct (subscript data "results") eqn:Hs; simpl; intros H; inversion H.
    subst. eapply subscript_error; eauto.
  - intros H. inversion H; subst. unfold json in Hj.
    destruct (content r); inversion Hj. reflexivity.
Qed.

(** X2: whatever its outcome, [load] has sent exactly one request, the GET of
    the collection, and nothing that writes.  It never looks at the status
    of the reply: when the remote answered, with an error status or not,
    an exception of [load] is never an [HTTPError] (a 403 with an error
    document shows as [KeyError], a body that is not JSON as
    [JSONDecodeError]); only a request that got no answer raises what
    [requests] raised. *)
Theorem load_sends_one_get_and_ignores_the_status self (st : state server) :
  wire (snd (load self st)) = wire st ++ [get_request self]
  /\ remote (snd (load self st)) = snd (serve (remote st) (get_request self))
  /\ (forall r e,
        fst (serve (remote st) (get_request self)) = Answer r ->
        fst (load self st) = Raise e ->
        is_http_error e = false)
  /\ (forall e,
        fst (serve (remote st) (get_request self)) = NoAnswer e ->
        load self st = (Raise e, delivered (get_request self) st)).
Proof.
  assert (Hstate : wire (snd (load self st)) = wire st ++ [get_request self]
                   /\ remote (snd (load self st))
                      = snd (serve (remote st) (get_request self))).
  { rewrite load_unfold.
    destruct (fst (_get_api_data self st)) as [results|e]; [|split; reflexivity].
    destruct (iterate results) as [items|e]; [|split; reflexivity].
    destruct (for_each load_one items (delivered (get_request self) st))
      as [r st'] eqn:Hl.
    apply load_loop_any in Hl as (Hr & Hw & _). simpl. rewrite Hr, Hw.
    split; reflexivity. }
  destruct Hstate as [Hw Hr]. split; [exact Hw|]. split; [exact Hr|]. split.
  - intros r e Hans. rewrite load_unfold.
    destruct (fst (_get_api_data self st)) as [results|e0] eqn:Hg.
    + destruct (iterate results) as [items|e1] eqn:Hit.
      * destruct (for_each load_one items (delivered (get_request self) st))
          as [r' st'] eqn:Hl.
        apply load_loop_any in Hl as (_ & _ & He). simpl. intros ->.
        apply He. reflexivity.
      * simpl. intros H. inversion H; subst.
        destruct results; simpl in Hit; inversion Hit; reflexivity.
    + simpl. intros H. inversion H; subst.
      eapply get_api_data_error; eauto.
  - intros e Hno. unfold ExampleSsotDataTarget.load, bind.
    unfold ExampleSsotDataTarget._get_api_data, bind.
    rewrite DataTargetProperties.send_delivers, Hno. reflexivity.
Qed.

(** *** The snapshot a successful [load] leaves *)

Lemma load_loop_snapshot items : forall (st st' : state server),
  for_each load_one items st = (Ok tt, st') ->
  exists objs,
    Forall2 (fun it o => load_item it = Ok o) items objs
    /\ NoDup (get_key <$> objs)
    /\ (forall o, o ∈ objs -> store st !! get_key o = None)
    /\ store st'
       = list_to_map ((fun o => (get_key o, o)) <$> objs) ∪ store st.
Proof.
  induction items as [|item items IH]; intros st st' H; simpl in H.
  - inversion H; subst. exists []. split; [constructor|].
    split; [constructor|]. split; [intros o Ho; inversion Ho|].
    simpl. rewrite (left_id_L ∅ (∪)). reflexivity.
  - apply bind_ok in H as ([] & st1 & H1 & H2).
    apply DataTargetProperties.load_one_ok in H1
      as (obj & Hobj & Hfresh & _ & _ & Hs).
    apply IH in H2 as (objs & Hall & Hnd & Hnone & Hst).
    assert (Hk : get_key obj ∉ get_key <$> objs).
    { intros Hin. apply list_elem_of_fmap in Hin as (o & Hko & Ho).
      apply Hnone in Ho. rewrite <- Hko, Hs, lookup_insert_eq in Ho.
      discriminate. }
    exists (obj :: objs). split; [constructor; assumption|].
    split; [simpl; constructor; assumption|]. split.
    + intros o Ho. apply elem_of_cons in Ho as [->|Ho]; [exact Hfresh|].
      apply Hnone in Ho. rewrite Hs in Ho.
      apply lookup_insert_None in Ho as [Ho _]. exact Ho.
    + rewrite Hst, Hs. simpl.
      rewrite <- insert_union_l. symmetry. apply insert_union_r.
      apply not_elem_of_list_to_map_1.
      rewrite <- list_fmap_compose. exact Hk.
Qed.

Lemma load_ok_loop self (st st' : state server) :
  load self st = (Ok tt, st') ->
  exists results items,
    fst (_get_api_data self st) = Ok results
    /\ iterate results = Ok items
    /\ for_each load_one items (delivered (get_request self) st) = (Ok tt, st').
Proof.
  rewrite load_unfold.
  destruct (fst (_get_api_data self st)) as [results|e]; [|discriminate].
  destruct (iterate results) as [items|e] eqn:Hit; [|discriminate].
  intros H. exists results, items. auto.
Qed.

(** X3: after a successful [load] the items of the reply have pairwise
    distinct identity keys, none of which was in the snapshot before, and
    the snapshot is the old one with each item's record entered under the
    record's own key. *)
Theorem load_enters_each_record_under_its_own_distinct_key
    self (st st' : state server) :
  load self st = (Ok tt, st') ->
  exists results items objs,
    fst (_get_api_data self st) = Ok results
    /\ iterate results = Ok items
    /\ Forall2 (fun it o => load_item it = Ok o) items objs
    /\ NoDup (get_key <$> objs)
    /\ (forall o, o ∈ objs -> store st !! get_key o = None)
    /\ store st'
       = list_to_map ((fun o => (get_key o, o)) <$> objs) ∪ store st
    /\ ((forall k o, store st !! k = Some o -> get_key o = k) ->
        forall k o, store st' !! k = Some o -> get_key o = k).
Proof.
  intros H. apply load_ok_loop in H as (results & items & Hg & Hit & Hloop).
  apply load_loop_snapshot in Hloop as (objs & Hall & Hnd & Hnone & Hst).
  simpl in Hst, Hnone.
  exists results, items, objs.
  split; [exact Hg|]. split; [exact Hit|]. split; [exact Hall|].
  split; [exact Hnd|]. split; [exact Hnone|]. split; [exact Hst|].
  intros Hkeyed k o Hk. rewrite Hst in Hk.
  apply lookup_union_Some_raw in Hk as [Hk|[_ Hk]]; [|apply Hkeyed; exact Hk].
  apply elem_of_list_to_map_2 in Hk.
  apply list_elem_of_fmap in Hk as (o' & Heq & _). inversion Heq; subst.
  reflexivity.
Qed.

(** X4: [load] gives no record a [pk]: if the snapshot held none with a [pk]
    before, then after a successful [load] every record of it is without
    one, and an [update] or [delete] of any of them is sent to
    [/api/ipam/vlans/None/]. *)
Theorem loaded_records_have_no_pk diffsync self (st st' : state server) :
  load self st = (Ok tt, st') ->
  (forall k o, store st !! k = Some o -> pk o = None) ->
  forall k o,
    store st' !! k = Some o ->
    pk o = None
    /\ (forall attrs st2,
          snd (update diffsync o attrs st2)
          = delivered (patch_request diffsync "/api/ipam/vlans/None/"
                         (VDict (update_data attrs))) st2)
    /\ (forall st2,
          snd (remove diffsync o st2)
          = delivered (delete_request diffsync "/api/ipam/vlans/None/") st2).
Proof.
  intros H Hold k o Hk.
  apply load_ok_loop in H as (results & items & _ & _ & Hloop).
  apply DataTargetProperties.load_loop in Hloop
    as (_ & _ & _ & _ & Honly & _).
  assert (Hpk : pk o = None).
  { apply Honly in Hk as [Hk|(it & _ & Hit)].
    - simpl in Hk. eapply Hold; eauto.
    - apply load_item_sound
        in Hit as (d & v & n & de & _ & _ & _ & _ & _ & _ & _ & _ & _ & Hp).
      exact Hp. }
  split; [exact Hpk|]. split.
  - intros attrs st2.
    rewrite (DataTargetProperties.update_once serve base_update). cbv zeta.
    rewrite Hpk. reflexivity.
  - intros st2.
    rewrite (DataTargetProperties.remove_once serve base_delete). cbv zeta.
    rewrite Hpk. reflexivity.
Qed.

(** *** [create], [delete] and the order of the requests *)

Lemma create_data_ok ids attrs body :
  create_data ids attrs = Ok body <->
  exists v n s d,
    ids !! "vid" = Some v
    /\ ids !! "name" = Some n
    /\ attrs !! "status__name" = Some (VStr s)
    /\ attrs !! "description" = Some d
    /\ body = list_to_map [("vid", v); ("name", n); ("status", VStr (lower s));
                           ("group__name", get_or_none attrs "vlan_group__name");
                           ("description", d)].
Proof.
  unfold create_data, getitem, rbind. split.
  - destruct (ids !! "vid") as [v|]; [|discriminate].
    destruct (ids !! "name") as [n|]; [|discriminate].
    destruct (attrs !! "status__name") as [s0|]; [|discriminate].
    destruct s0 as [| | |s| |]; simpl; try discriminate.
    destruct (attrs !! "description") as [d|]; [|discriminate].
    intros H. inversion H. exists v, n, s, d. auto.
  - intros (v & n & s & d & -> & -> & -> & -> & ->). reflexivity.
Qed.

(** X5: [create] sends its POST only with a complete body: it needs [vid]
    and [name] among the identifiers and a string [status__name] and a
    [description] among the attributes, and raises without a request
    when one is missing.  The body has the five entries [vid], [name],
    [status], [group__name] and [description]; the group is read from the
    attributes, so with the group among the identifiers only (where the
    model declares it) the body's [group__name] is [null] whatever group
    the identifiers name. *)
Theorem create_posts_only_a_complete_body diffsync ids attrs (st : state server) :
  (forall e, create_data ids attrs = Raise e ->
     create diffsync ids attrs st = (Raise e, st))
  /\ (forall body,
        create_data ids attrs = Ok body <->
        exists v n s d,
          ids !! "vid" = Some v
          /\ ids !! "name" = Some n
          /\ attrs !! "status__name" = Some (VStr s)
          /\ attrs !! "description" = Some d
          /\ body = list_to_map
                      [("vid", v); ("name", n); ("status", VStr (lower s));
                       ("group__name", get_or_none attrs "vlan_group__name");
                       ("description", d)])
  /\ (forall body,
        create_data ids attrs = Ok body ->
        snd (create diffsync ids attrs st)
        = delivered (post_request diffsync "/api/ipam/vlans/" (VDict body)) st
        /\ dom body = {["vid"; "name"; "status"; "group__name"; "description"]}
        /\ (attrs !! "vlan_group__name" = None ->
            body !! "group__name" = Some VNone)).
Proof.
  split; [|split].
  - intros e He. rewrite (DataTargetProperties.create_once serve base_create).
    rewrite He. reflexivity.
  - intros body. apply create_data_ok.
  - intros body Hb. split.
    + rewrite (DataTargetProperties.create_once serve base_create), Hb.
      reflexivity.
    + apply create_data_ok in Hb as (v & n & s & d & _ & _ & _ & _ & ->).
      split.
      * rewrite dom_list_to_map_L. simpl. set_solver.
      * intros Hg. unfold get_or_none. rewrite Hg. reflexivity.
Qed.

(** X6: [create] and [delete] hand over to the base class exactly when the
    remote accepted the request: with a status from 400 to 599 they raise
    the [HTTPError] and the base-class operation is not run; with any
    other status their result is the base class's. *)
Theorem create_and_delete_run_the_base_class_only_when_accepted
    diffsync ids attrs body obj (st : state server) r1 r2 :
  create_data ids attrs = Ok body ->
  fst (serve (remote st) (post_request diffsync "/api/ipam/vlans/" (VDict body)))
    = Answer r1 ->
  fst (serve (remote st) (delete_request diffsync (vlan_path (pk obj))))
    = Answer r2 ->
  fst (create diffsync ids attrs st)
    = (if (400 <=? status_code r1) && (status_code r1 <? 600)
       then Raise (HTTPError (status_code r1))
       else base_create ids attrs)
  /\ fst (remove diffsync obj st)
    = (if (400 <=? status_code r2) && (status_code r2 <? 600)
       then Raise (HTTPError (status_code r2))
       else base_delete obj).
Proof.
  intros Hb H1 H2. split.
  - rewrite (DataTargetProperties.create_once serve base_create), Hb.
    cbv zeta. rewrite H1. simpl. unfold raise_for_status.
    destruct ((400 <=? status_code r1) && (status_code r1 <? 600)); reflexivity.
  - rewrite (DataTargetProperties.remove_once serve base_delete).
    cbv zeta. rewrite H2. simpl. unfold raise_for_status.
    destruct ((400 <=? status_code r2) && (status_code r2 <? 600)); reflexivity.
Qed.

End Remote.

(** *** Worked examples *)

#[local] Existing Instance strict.

(** An item whose [vid] is text or a [bool] is loaded or not as the
    validation converts it: a validation that takes [True] for 1 gives
    VLAN 1, one that converts nothing fails the item. *)
Lemma a_vid_that_is_not_an_int :
  let it := VDict (list_to_map [("vid", VBool true); ("name", VStr "users");
                                ("group", VNone); ("description", VStr "")]) in
  @load_item lenient it
  = Ok {| pk := None; vid := 1; name := "users"; status__name := "active";
          vlan_group__name := None; description := Some "" |}
  /\ @load_item strict it = Raise (ValidationError "vid").
Proof. cbv zeta. split; reflexivity. Qed.

Lemma create_and_delete_accepted_witness :
  let rq1 := post_request target_adapter "/api/ipam/vlans/"
    (VDict (list_to_map [("vid", VInt 30); ("name", VStr "lab");
                         ("status", VStr "active"); ("group__name", VNone);
                         ("description", VStr "x")])) in
  fst (VLANRemoteModel_create numbering plain_create target_adapter
         ids30 attrs30 (fresh 7))
    = (if (400 <=? 201) && (201 <? 600)
       then Raise (HTTPError 201)
       else plain_create ids30 attrs30)
  /\ fst (VLANRemoteModel_delete numbering plain_delete target_adapter
            vlan_a (fresh 7))
    = (if (400 <=? 200) && (200 <? 600)
       then Raise (HTTPError 200)
       else plain_delete vlan_a).
Proof.
  cbv zeta.
  apply (create_and_delete_run_the_base_class_only_when_accepted
           numbering plain_create plain_delete target_adapter ids30 attrs30
           (list_to_map [("vid", VInt 30); ("name", VStr "lab");
                         ("status", VStr "active"); ("group__name", VNone);
                         ("description", VStr "x")])
           vlan_a (fresh 7)
           {| status_code := 201;
              content := Some (VDict (<["id" := VInt 7]>
                (list_to_map [("vid", VInt 30); ("name", VStr "lab");
                              ("status", VStr "active"); ("group__name", VNone);
                              ("description", VStr "x")]))) |}
           {| status_code := 200; content := None |});
    reflexivity.
Defined.

Lemma load_snapshot_witness :
  let st := fresh tt in
  let st' := snd (load two_pages target_adapter st) in
  exists results items objs,
    fst (_get_api_data two_pages target_adapter st) = Ok results
    /\ iterate results = Ok items
    /\ Forall2 (fun it o => load_item it = Ok o) items objs
    /\ NoDup (get_key <$> objs)
    /\ (forall o, o ∈ objs -> store st !! get_key o = None)
    /\ store st'
       = list_to_map ((fun o => (get_key o, o)) <$> objs) ∪ store st
    /\ ((forall k o, store st !! k = Some o -> get_key o = k) ->
        forall k o, store st' !! k = Some o -> get_key o = k).
Proof.
  cbv zeta.
  apply (load_enters_each_record_under_its_own_distinct_key two_pages
           target_adapter (fresh tt)).
  reflexivity.
Defined.

Lemma loaded_records_have_no_pk_witness :
  let st' := snd (load two_pages target_adapter (fresh tt)) in
  let o := {| pk := None; vid := 10; name := "users"; status__name := "active";
              vlan_group__name := None; description := Some "" |} in
  store st' !! (10, "users", None) = Some o
  /\ pk o = None
  /\ (forall attrs st2,
        snd (VLANRemoteModel_update two_pages plain_update target_adapter
               o attrs st2)
        = delivered two_pages
            (patch_request target_adapter "/api/ipam/vlans/None/"
               (VDict (update_data attrs))) st2)
  /\ (forall st2,
        snd (VLANRemoteModel_delete two_pages plain_delete target_adapter o st2)
        = delivered two_pages
            (delete_request target_adapter "/api/ipam/vlans/None/") st2).
Proof.
  cbv zeta. split; [reflexivity|].
  apply (loaded_records_have_no_pk two_pages plain_update plain_delete
           target_adapter target_adapter (fresh tt)
           (snd (load two_pages target_adapter (fresh tt)))
           eq_refl) with (k := (10, "users", None)).
  - intros k o Hk. simpl in Hk. rewrite lookup_empty in Hk. discriminate.
  - reflexivity.
Defined.

End DataTargetMore.

(** ** More on [jobs/example_ssot.py] *)

Module DataSourceProperties.
Import ExampleSsot.

Section Source.

Context {V : Validation}.

Local Abbreviation load_one :=
  (fun v => loaded_vlan <~ lift (load_item v) ;; add loaded_vlan).

Lemma source_load_one_ok (v : nb_vlan) (store store' : gmap key VLANModel) :
  load_one v store = (Ok tt, store') ->
  exists obj, load_item v = Ok obj
    /\ store !! get_key obj = None
    /\ store' = <[get_key obj := obj]> store.
Proof.
  unfold bind, lift. destruct (load_item v) as [obj|e]; [|discriminate].
  unfold add. destruct (store !! get_key obj) eqn:E; intros H; inversion H.
  eauto.
Qed.

Lemma source_load_one_any (v : nb_vlan) (store store' : gmap key VLANModel) r :
  load_one v store = (r, store') -> store ⊆ store'.
Proof.
  unfold bind, lift. destruct (load_item v) as [obj|e].
  - unfold add. destruct (store !! get_key obj) eqn:E;
      intros H; inversion H; subst; [reflexivity|].
    apply insert_subseteq. exact E.
  - intros H. inversion H. reflexivity.
Qed.

(** X8: whatever its outcome, [load] only adds to the snapshot: the records
    that were there are still there, unchanged, also when a later VLAN
    made it raise. *)
Theorem source_load_only_adds (all_vlans : list nb_vlan) (store : gmap key VLANModel) :
  store ⊆ snd (load all_vlans store).
Proof.
  unfold load. revert store.
  induction all_vlans as [|v vs IH]; intros store; simpl.
  - reflexivity.
  - unfold bind at 1.
    destruct ((loaded_vlan <~ lift (load_item v) ;; add loaded_vlan) store)
      as [[[]|e] store1] eqn:H1.
    + apply source_load_one_any in H1. etrans; [exact H1|apply IH].
    + apply source_load_one_any in H1. exact H1.
Qed.

(** X9: after a successful [load] every VLAN the client yielded has given a
    record, the identity keys [(vid, group__name)] of these records are
    pairwise distinct and were not in the snapshot before, and the
    snapshot is the old one with each record entered under its key. *)
Theorem source_load_enters_each_record_under_its_own_distinct_key
    (all_vlans : list nb_vlan) (store store' : gmap key VLANModel) :
  load all_vlans store = (Ok tt, store') ->
  exists objs,
    Forall2 (fun v o => load_item v = Ok o) all_vlans objs
    /\ NoDup (get_key <$> objs)
    /\ (forall o, o ∈ objs -> store !! get_key o = None)
    /\ store' = list_to_map ((fun o => (get_key o, o)) <$> objs) ∪ store.
Proof.
  unfold load. revert store store'.
  induction all_vlans as [|v vs IH]; intros store store' H; simpl in H.
  - inversion H; subst. exists []. split; [constructor|].
    split; [constructor|]. split; [intros o Ho; inversion Ho|].
    simpl. rewrite (left_id_L ∅ (∪)). reflexivity.
  - apply bind_ok in H as ([] & store1 & H1 & H2).
    apply source_load_one_ok in H1 as (obj & Hobj & Hfresh & ->).
    apply IH in H2 as (objs & Hall & Hnd & Hnone & ->).
    assert (Hk : get_key obj ∉ get_key <$> objs).
    { intros Hin. apply list_elem_of_fmap in Hin as (o & Hko & Ho).
      apply Hnone in Ho. rewrite <- Hko, lookup_insert_eq in Ho.
      discriminate. }
    exists (obj :: objs). split; [constructor; assumption|].
    split; [simpl; constructor; assumption|]. split.
    + intros o Ho. apply elem_of_cons in Ho as [->|Ho]; [exact Hfresh|].
      apply Hnone in Ho. apply lookup_insert_None in Ho as [Ho _]. exact Ho.
    + simpl. rewrite <- insert_union_l. symmetry. apply insert_union_r.
      apply not_elem_of_list_to_map_1.
      rewrite <- list_fmap_compose. exact Hk.
Qed.

(** X10: two VLANs with the same [vid] in the same group (or both in none)
    cannot both be loaded: the second makes [load] raise
    [ObjectAlreadyExists], with the first one's record kept. *)
Theorem source_load_refuses_a_repeated_key
    (v1 v2 : nb_vlan) (o1 o2 : VLANModel) (rest : list nb_vlan)
    (store : gmap key VLANModel) :
  load_item v1 = Ok o1 ->
  load_item v2 = Ok o2 ->
  get_key o1 = get_key o2 ->
  store !! get_key o1 = None ->
  load (v1 :: v2 :: rest) store
  = (Raise ObjectAlreadyExists, <[get_key o1 := o1]> store).
Proof.
  intros H1 H2 Hk Hfresh. unfold load. simpl. unfold bind, lift.
  rewrite H1. unfold add at 1. rewrite Hfresh. rewrite H2.
  unfold add at 1. rewrite <- Hk, lookup_insert_eq. reflexivity.
Qed.

End Source.

#[local] Existing Instance strict.

Lemma source_load_witness :
  let all := [nb 10 (Some "eng") (VStr "users"); nb 10 None VNone;
              nb 20 (Some "eng") (VStr "")] in
  let store' := snd (load all ∅) in
  exists objs,
    Forall2 (fun v o => load_item v = Ok o) all objs
    /\ NoDup (get_key <$> objs)
    /\ (forall o, o ∈ objs -> (∅ : gmap key VLANModel) !! get_key o = None)
    /\ store' = list_to_map ((fun o => (get_key o, o)) <$> objs) ∪ ∅.
Proof.
  cbv zeta.
  apply (source_load_enters_each_record_under_its_own_distinct_key
           [nb 10 (Some "eng") (VStr "users"); nb 10 None VNone;
            nb 20 (Some "eng") (VStr "")] ∅).
  reflexivity.
Defined.

Lemma source_load_repeated_key_witness :
  load [nb 10 (Some "eng") (VStr "a"); nb 10 (Some "eng") (VStr "b");
        nb 20 None VNone] ∅
  = (Raise ObjectAlreadyExists,
     <[(10, Some "eng") :=
         {| vid := 10; group__name := Some "eng"; description := Some "a" |}]> ∅).
Proof.
  apply (source_load_refuses_a_repeated_key
           (nb 10 (Some "eng") (VStr "a")) (nb 10 (Some "eng") (VStr "b"))
           {| vid := 10; group__name := Some "eng"; description := Some "a" |}
           {| vid := 10; group__name := Some "eng"; description := Some "b" |}
           [nb 20 None VNone] ∅); reflexivity.
Defined.

End DataSourceProperties.

(** ** More on [jobs/get_version.py] *)

Module GetVersionText.
Import GetVersion.

(** *** Strings *)

Lemma append_cons x (a b : string) : String x a +:+ b = String x (a +:+ b).
Proof. reflexivity. Qed.

Lemma append_nil_l (a : string) : "" +:+ a = a.
Proof. reflexivity. Qed.

Ltac norm_append := rewrite ?append_cons, ?append_nil_l.
Tactic Notation "norm_append" "in" hyp(H) :=
  rewrite ?append_cons, ?append_nil_l in H.

Lemma append_assoc (a b c : string) : (a +:+ b) +:+ c = a +:+ b +:+ c.
Proof.
  induction a as [|x a IH]; [reflexivity|].
  rewrite !append_cons, IH. reflexivity.
Qed.

Lemma strip_prefix_spec p s rest :
  strip_prefix p s = Some rest <-> s = p +:+ rest.
Proof.
  revert s. induction p as [|a p IH]; intros s; simpl.
  - split; [intros H; inversion H; reflexivity|intros ->; reflexivity].
  - destruct s as [|b s]; [split; discriminate|].
    destruct (Ascii.eqb a b) eqn:E.
    + apply Ascii.eqb_eq in E. subst b. rewrite IH.
      split; [intros ->; reflexivity|intros H; inversion H; reflexivity].
    + apply Ascii.eqb_neq in E. split; [discriminate|].
      intros H. inversion H. congruence.
Qed.

(** The run [span_nonspace] takes is free of blanks, and what follows it
    is nothing or starts with a blank. *)
Lemma span_nonspace_spec s :
  Forall (fun c => is_space c = false) (list_ascii_of_string (span_nonspace s))
  /\ exists rest,
       s = span_nonspace s +:+ rest
       /\ (rest = "" \/ exists c r, rest = String c r /\ is_space c = true).
Proof.
  induction s as [|c s [IH1 (rest & IH2 & IH3)]]; simpl.
  - split; [constructor|]. exists "". auto.
  - destruct (is_space c) eqn:E; simpl.
    + split; [constructor|]. exists (String c s). split; [reflexivity|].
      right. eauto.
    + split; [constructor; assumption|]. exists rest.
      split; [norm_append; rewrite <- IH2; reflexivity|exact IH3].
Qed.

Lemma match_at_some lit s g :
  match_at lit s = Some g ->
  exists rest, s = lit +:+ rest /\ span_nonspace rest = g /\ g <> "".
Proof.
  unfold match_at. destruct (strip_prefix lit s) as [rest|] eqn:Hp; [|discriminate].
  apply strip_prefix_spec in Hp.
  destruct (span_nonspace rest) as [|c g'] eqn:Hg; [discriminate|].
  intros H. exists rest.
  split; [exact Hp|]. split; congruence.
Qed.

Lemma match_at_none lit s c rest :
  match_at lit s = None -> s = lit +:+ String c rest -> is_space c = true.
Proof.
  unfold match_at. intros H Hs. apply strip_prefix_spec in Hs. rewrite Hs in H.
  simpl in H. destruct (is_space c); [reflexivity|discriminate].
Qed.

Lemma re_search_unfold lit s :
  re_search lit s =
  match match_at lit s with
  | Some g => Some g
  | None => match s with
            | EmptyString => None
            | String _ s' => re_search lit s'
            end
  end.
Proof. destruct s; reflexivity. Qed.

(** X11: what [re.search] finds: the group is a run of one or more characters
    free of blanks that stands in the text right after an occurrence of
    the literal, and it is the whole run: the text ends after it or goes
    on with a blank. *)
Theorem re_search_finds_a_run_after_the_literal lit s g :
  re_search lit s = Some g ->
  g <> ""
  /\ Forall (fun c => is_space c = false) (list_ascii_of_string g)
  /\ exists pre post,
       s = pre +:+ lit +:+ g +:+ post
       /\ (post = "" \/ exists c r, post = String c r /\ is_space c = true).
Proof.
  revert g. induction s as [|a s IH]; intros g; rewrite re_search_unfold.
  - destruct (match_at lit "") as [g'|] eqn:Hm; [|discriminate].
    intros H. inversion H; subst g'.
    apply match_at_some in Hm as (rest & Hs & Hg & Hne).
    destruct (span_nonspace_spec rest) as [Hf (post & Hr & Hpost)].
    rewrite Hg in Hf, Hr. split; [exact Hne|]. split; [exact Hf|].
    exists "", post. split; [|exact Hpost]. norm_append. rewrite <- Hr. exact Hs.
  - destruct (match_at lit (String a s)) as [g'|] eqn:Hm.
    + intros H. inversion H; subst g'.
      apply match_at_some in Hm as (rest & Hs & Hg & Hne).
      destruct (span_nonspace_spec rest) as [Hf (post & Hr & Hpost)].
      rewrite Hg in Hf, Hr. split; [exact Hne|]. split; [exact Hf|].
      exists "", post. split; [|exact Hpost]. norm_append. rewrite <- Hr. exact Hs.
    + intros H. apply IH in H as (Hne & Hf & pre & post & Hs & Hpost).
      split; [exact Hne|]. split; [exact Hf|].
      exists (String a pre), post. split; [|exact Hpost].
      norm_append. rewrite <- Hs. reflexivity.
Qed.

Lemma re_search_finds_a_run_witness :
  let s := "Cisco IOS Software, C2900 Software, Version 15.2(4)M3, RELEASE" in
  let g := "15.2(4)M3," in
  g <> ""
  /\ Forall (fun c => is_space c = false) (list_ascii_of_string g)
  /\ exists pre post,
       s = pre +:+ "Version " +:+ g +:+ post
       /\ (post = "" \/ exists c r, post = String c r /\ is_space c = true).
Proof.
  cbv zeta.
  apply (re_search_finds_a_run_after_the_literal "Version "
           "Cisco IOS Software, C2900 Software, Version 15.2(4)M3, RELEASE").
  vm_compute. reflexivity.
Defined.

(** X12: [re.search] finds nothing exactly when the literal is nowhere in the
    text followed by a character that is not a blank. *)
Theorem re_search_fails_only_without_an_occurrence lit s :
  re_search lit s = None <->
  forall pre c rest, s = pre +:+ lit +:+ String c rest -> is_space c = true.
Proof.
  induction s as [|a s IH]; rewrite re_search_unfold.
  - split.
    + destruct (match_at lit "") eqn:Hm; [discriminate|]. intros _ pre c rest Hs.
      destruct pre; [|discriminate]. norm_append in Hs.
      eapply match_at_none; eauto.
    + intros H. destruct (match_at lit "") as [g|] eqn:Hm; [|reflexivity].
      apply match_at_some in Hm as (rest & Hs & Hg & Hne).
      destruct rest as [|c rest]; [simpl in Hg; congruence|].
      specialize (H "" c rest Hs). simpl in Hg. rewrite H in Hg. congruence.
  - split.
    + destruct (match_at lit (String a s)) eqn:Hm; [discriminate|].
      intros Hnone pre c rest Hs. destruct pre as [|b pre].
      * norm_append in Hs. eapply match_at_none; eauto.
      * norm_append in Hs. inversion Hs; subst.
        apply (proj1 IH Hnone pre c rest). reflexivity.
    + intros H. destruct (match_at lit (String a s)) as [g|] eqn:Hm.
      * apply match_at_some in Hm as (rest & Hs & Hg & Hne).
        destruct rest as [|c rest]; [simpl in Hg; congruence|].
        specialize (H "" c rest Hs). simpl in Hg. rewrite H in Hg. congruence.
      * apply IH. intros pre c rest Hs.
        apply (H (String a pre) c rest). norm_append. rewrite <- Hs. reflexivity.
Qed.

(** *** [strip(',')] *)

Lemma lstrip_comma_spec s :
  exists a,
    s = a +:+ lstrip_comma s
    /\ Forall (fun c => is_comma c = true) (list_ascii_of_string a)
    /\ forall c t, lstrip_comma s = String c t -> is_comma c = false.
Proof.
  induction s as [|c s (a & IH1 & IH2 & IH3)]; simpl.
  - exists "". split; [reflexivity|]. split; [constructor|]. discriminate.
  - destruct (is_comma c) eqn:E.
    + exists (String c a). split; [norm_append; rewrite <- IH1; reflexivity|].
      split; [constructor; assumption|exact IH3].
    + exists "". split; [reflexivity|]. split; [constructor|].
      intros c' t H. inversion H; subst. exact E.
Qed.

Lemma rstrip_comma_spec s :
  (exists b,
     s = rstrip_comma s +:+ b
     /\ Forall (fun c => is_comma c = true) (list_ascii_of_string b))
  /\ (forall t c, rstrip_comma s = t +:+ String c "" -> is_comma c = false)
  /\ (forall c t, rstrip_comma s = String c t -> exists t', s = String c t').
Proof.
  induction s as [|c s [(b & IH1 & IH2) [IH3 IH4]]]; simpl.
  - split; [exists ""; split; [reflexivity|constructor]|].
    split; [intros [|x t] c H; norm_append in H; discriminate|discriminate].
  - destruct (rstrip_comma s) as [|x r] eqn:Hr.
    + norm_append in IH1. subst b.
      destruct (is_comma c) eqn:E.
      * split.
        { exists (String c s). split; [reflexivity|].
          simpl. constructor; assumption. }
        split; [intros [|y t] c' H; norm_append in H; discriminate|discriminate].
      * split.
        { exists s. split; [reflexivity|exact IH2]. }
        split.
        { intros [|y t] c' H; norm_append in H; inversion H; subst;
            [exact E|].
          destruct t; norm_append in H; discriminate. }
        intros c' t H. inversion H; subst. eauto.
    + split.
      { exists b. split; [|exact IH2].
        norm_append. norm_append in IH1. rewrite <- IH1. reflexivity. }
      split.
      { intros [|y t] c' H; norm_append in H; inversion H; subst.
        eapply IH3. eassumption. }
      intros c' t H. inversion H; subst. eauto.
Qed.

(** X13: [strip(',')] takes commas, and only commas, off both ends: the text
    is the result between two runs of commas, and the result neither
    starts nor ends with a comma. *)
Theorem strip_comma_takes_the_commas_off_both_ends s :
  (exists a b,
     s = a +:+ strip_comma s +:+ b
     /\ Forall (fun c => is_comma c = true) (list_ascii_of_string a)
     /\ Forall (fun c => is_comma c = true) (list_ascii_of_string b))
  /\ (forall c t, strip_comma s = String c t -> is_comma c = false)
  /\ (forall t c, strip_comma s = t +:+ String c "" -> is_comma c = false).
Proof.
  unfold strip_comma.
  destruct (lstrip_comma_spec s) as (a & Ha & Hca & Hhead).
  destruct (rstrip_comma_spec (lstrip_comma s)) as [(b & Hb & Hcb) [Hlast Hfirst]].
  split; [|split].
  - exists a, b. split; [|split; assumption].
    rewrite <- Hb. exact Ha.
  - intros c t H. apply Hfirst in H as (t' & H). eapply Hhead. exact H.
  - exact Hlast.
Qed.

End GetVersionText.

Module GetVersionMore.
Import GetVersion.

Lemma sessions_journal_add es w :
  sessions (journal_add es w)
  = sessions w
    ++ omap (fun e => match e with Session i _ => Some i | _ => None end) es.
Proof. unfold sessions, journal_add. simpl. apply omap_app. Qed.

Lemma sessions_logged level m w :
  sessions (journal_add [Logged level m] w) = sessions w.
Proof. rewrite sessions_journal_add. simpl. apply app_nil_r. Qed.

(** Every supported driver has its command and its pattern. *)
Lemma supported_driver_tables p :
  p ∈ supported_drivers ->
  is_Some (show_version_commands !! p) /\ is_Some (patterns !! p).
Proof.
  unfold supported_drivers. intros H.
  repeat (apply elem_of_cons in H as [->|H]); [| | |inversion H];
    split; eexists; reflexivity.
Qed.

(** X14: [__init__] succeeds exactly for a device with a platform whose driver
    is supported and with a primary address, when the three SSH secrets
    are stored; the task then holds the device, the driver and the
    connection arguments made of them, and one line has been logged. *)
Theorem init_succeeds_exactly_for_a_supported_addressed_device dev w task w' :
  OnboardVersion_init dev w = (Ok task, w') <->
  exists p h u pw sc,
    platform dev = Some p
    /\ network_driver p ∈ supported_drivers
    /\ primary_ip dev = Some h
    /\ secrets w !! "SSH_USERNAME" = Some u
    /\ secrets w !! "SSH_PASSWORD" = Some pw
    /\ secrets w !! "SSH_SECRET" = Some sc
    /\ task = {| device := dev; platform_name := network_driver p;
                 device_info := {| device_type := network_driver p; ip := h;
                                   username := u; password := pw;
                                   secret := sc |};
                 raw_version := None; parsed_version := None;
                 nautobot_software := None |}
    /\ w' = journal_add [Logged "info" greeting] w.
Proof.
  unfold OnboardVersion_init, bind.
  rewrite GetVersionProperties.print_info. unfold lift, secret_value.
  split.
  - destruct (platform dev) as [p|]; [|discriminate].
    destruct (bool_decide (network_driver p ∈ supported_drivers)) eqn:Hp;
      simpl; [|discriminate].
    apply bool_decide_eq_true in Hp.
    destruct (primary_ip dev) as [h|]; [|discriminate].
    simpl. destruct (secrets w !! "SSH_USERNAME") as [u|]; simpl; [|discriminate].
    destruct (secrets w !! "SSH_PASSWORD") as [pw|]; simpl; [|discriminate].
    destruct (secrets w !! "SSH_SECRET") as [sc|]; simpl; [|discriminate].
    intros H. inversion H; subst. exists p, h, u, pw, sc. repeat split; auto.
  - intros (p & h & u & pw & sc & -> & Hp & -> & Hu & Hpw & Hsc & -> & ->).
    rewrite bool_decide_eq_true_2 by exact Hp. simpl.
    rewrite Hu. simpl. rewrite Hpw. simpl. rewrite Hsc. reflexivity.
Qed.

Section Collector.

Variable ping : string -> Z.
Variable session_output : device_info_t -> option string -> result string.
Variable clean_software : SoftwareLCM -> result unit.
Variable clean_association : RelationshipAssociation -> result unit.

Local Abbreviation get_version := (get_version ping session_output).
Local Abbreviation import_to_nautobot := (import_to_nautobot clean_software).
Local Abbreviation assign_to_device := (assign_to_device clean_association).
Local Abbreviation record_version :=
  (record_version clean_software clean_association).
Local Abbreviation execute :=
  (execute ping session_output clean_software clean_association).
Local Abbreviation onboard :=
  (onboard ping session_output clean_software clean_association).
Local Abbreviation run :=
  (run ping session_output clean_software clean_association).

(** X15: once a task is built and the device has answered, [parse_version]
    has its pattern and its text: it returns the task with the group that
    [re.search] found, commas stripped, or raises the "Could not parse"
    exception, and no other. *)
Theorem parse_version_after_get_version dev w task w1 t1 w2 :
  OnboardVersion_init dev w = (Ok task, w1) ->
  get_version task w1 = (Ok t1, w2) ->
  exists lit out,
    patterns !! platform_name task = Some lit
    /\ session_output (device_info task)
         (show_version_commands !! platform_name task) = Ok out
    /\ is_Some (show_version_commands !! platform_name task)
    /\ t1 = with_raw_version task out
    /\ parse_version t1 w2
       = match re_search lit out with
         | Some g =>
             (Ok (with_parsed_version t1 (strip_comma g)),
              journal_add [Logged "info" ("Device software version: "
                                          +:+ strip_comma g)] w2)
         | None =>
             (Raise (Exception
                       ("Could not parse, pattern not found in the input string: "
                        +:+ lit +:+ "(\S+)")), w2)
         end.
Proof.
  intros Hinit Hget.
  apply GetVersionProperties.init_ok in Hinit as (_ & _ & Hsup & _).
  apply supported_driver_tables in Hsup as [Hcmd [lit Hlit]].
  rewrite GetVersionProperties.get_version_run in Hget. cbv zeta in Hget.
  destruct (negb _); [discriminate|].
  destruct (session_output _ _) as [out|e] eqn:Hout; simpl in Hget; [|discriminate].
  inversion Hget; subst t1 w2.
  exists lit, out. split; [exact Hlit|]. split; [reflexivity|].
  split; [exact Hcmd|]. split; [reflexivity|].
  rewrite GetVersionProperties.parse_version_run. simpl. rewrite Hlit.
  reflexivity.
Qed.

(** *** What every step leaves of the journal and the tables *)

Lemma import_any self w r w' :
  import_to_nautobot self w = (r, w') ->
  sessions w' = sessions w
  /\ (exists l, software w' = software w ++ l)
  /\ associations w' = associations w.
Proof.
  destruct (parsed_version self) as [v|] eqn:Hv.
  - rewrite (GetVersionProperties.import_run _ _ _ _ Hv).
    destruct (software_with_version v w) as [|sw [|sw' rows]];
      [cbv zeta; destruct (clean_software _)| |];
      intros H; inversion H; subst;
      rewrite ?sessions_logged;
      (split; [reflexivity|]); (split; [|reflexivity]);
      first [ exists []; rewrite app_nil_r; reflexivity
            | eexists; reflexivity ].
  - unfold GetVersion.import_to_nautobot. rewrite Hv.
    intros H. inversion H. split; [reflexivity|].
    split; [exists []; rewrite app_nil_r|]; reflexivity.
Qed.

Lemma assign_any self w r w' :
  assign_to_device self w = (r, w') ->
  sessions w' = sessions w
  /\ software w' = software w
  /\ exists l, associations w' = associations w ++ l.
Proof.
  assert (Hsame : sessions w = sessions w /\ software w = software w
                  /\ exists l, associations w = associations w ++ l)
    by (repeat split; exists []; rewrite app_nil_r; reflexivity).
  rewrite GetVersionProperties.assign_run.
  destruct (objects_get (filter _ (relationships w))) as [rel|e];
    [|intros H; inversion H; subst; exact Hsame].
  destruct (nautobot_software self) as [sw|];
    [|intros H; inversion H; subst; exact Hsame].
  destruct (associations_of _ _ _ w) as [|a rows].
  - destruct (objects_get (filter _ (content_types w))) as [sct|e];
      [|intros H; inversion H; subst; exact Hsame].
    destruct (objects_get (filter _ (content_types w))) as [dct|e];
      [|intros H; inversion H; subst; exact Hsame].
    cbv zeta. destruct (clean_association _);
      [|intros H; inversion H; subst; exact Hsame].
    intros H. inversion H; subst. rewrite sessions_logged.
    split; [reflexivity|]. split; [reflexivity|]. eexists. reflexivity.
  - intros H. inversion H; subst. rewrite sessions_logged.
    split; [reflexivity|]. split; [reflexivity|].
    exists []. rewrite app_nil_r. reflexivity.
Qed.

Lemma get_version_any self w r w' :
  get_version self w = (r, w') ->
  same_database w w'
  /\ exists l,
       sessions w' = sessions w ++ l
       /\ Forall (fun i => ping (ip i) = 0 /\ i = device_info self) l.
Proof.
  rewrite GetVersionProperties.get_version_run. cbv zeta.
  destruct (negb (ping (ip (device_info self)) =? 0)) eqn:Hp.
  - intros H. inversion H; subst.
    split; [apply GetVersionProperties.journal_add_same_database|].
    exists []. rewrite sessions_journal_add. simpl. split; [reflexivity|constructor].
  - intros H. inversion H; subst.
    split; [apply GetVersionProperties.journal_add_same_database|].
    exists [device_info self]. rewrite sessions_journal_add. simpl.
    split; [reflexivity|]. constructor; [|constructor].
    apply negb_false_iff, Z.eqb_eq in Hp. auto.
Qed.

Lemma parse_version_frame self w r w' :
  parse_version self w = (r, w') ->
  same_database w w' /\ sessions w' = sessions w.
Proof.
  rewrite GetVersionProperties.parse_version_run.
  destruct (patterns !! platform_name self) as [lit|];
    [destruct (raw_version self) as [raw|];
     [destruct (re_search lit raw) as [g|]|]|];
    intros H; inversion H; subst; rewrite ?sessions_logged;
    (split; [|reflexivity]);
    first [ apply GetVersionProperties.journal_add_same_database
          | repeat split ].
Qed.

(** One device, whatever the outcome: at most one session, opened with
    the task's arguments to the device's primary address after that
    address answered the ping; rows are only ever added. *)
Lemma onboard_any dev w r w' :
  onboard dev w = (r, w') ->
  (exists l,
     sessions w' = sessions w ++ l
     /\ Forall (fun i => ping (ip i) = 0 /\ primary_ip dev = Some (ip i)) l)
  /\ (exists l, software w' = software w ++ l)
  /\ (exists l, associations w' = associations w ++ l).
Proof.
  assert (Hnil : forall A (x : list A), exists l, x = x ++ l)
    by (intros A x; exists []; rewrite app_nil_r; reflexivity).
  unfold GetVersion.onboard, bind.
  destruct (OnboardVersion_init dev w) as [[task|e] wa] eqn:Hinit.
  - pose proof (GetVersionProperties.init_ok _ _ _ _ Hinit)
      as (_ & Hip & _ & ->).
    unfold GetVersion.execute, bind.
    destruct (get_version task _) as [[t1|e] wb] eqn:Hg.
    + apply get_version_any in Hg
        as ((_ & Hso1 & _ & _ & Has1 & _) & l & Hse1 & Hf).
      assert (Hf' : Forall (fun i => ping (ip i) = 0
                                     /\ primary_ip dev = Some (ip i)) l).
      { eapply Forall_impl; [exact Hf|]. intros i [Hp ->]. auto. }
      rewrite sessions_logged in Hse1. simpl in Hso1, Has1.
      destruct (parse_version t1 wb) as [[t2|e] wc] eqn:Hp.
      * apply parse_version_frame in Hp
          as ((_ & Hso2 & _ & _ & Has2 & _) & Hse2).
        destruct (import_to_nautobot t2 wc) as [[t3|e] wd] eqn:Hi.
        -- apply import_any in Hi as (Hse3 & (l1 & Hso3) & Has3).
           intros Ha. apply assign_any in Ha as (Hse4 & Hso4 & (l2 & Has4)).
           split; [exists l; split; [congruence|exact Hf']|].
           split; [exists l1; congruence|exists l2; congruence].
        -- apply import_any in Hi as (Hse3 & (l1 & Hso3) & Has3).
           intros H. inversion H; subst.
           split; [exists l; split; [congruence|exact Hf']|].
           split; [exists l1; congruence|exists []; rewrite app_nil_r; congruence].
      * apply parse_version_frame in Hp
          as ((_ & Hso2 & _ & _ & Has2 & _) & Hse2).
        intros H. inversion H; subst.
        split; [exists l; split; [congruence|exact Hf']|].
        split; exists []; rewrite app_nil_r; congruence.
    + apply get_version_any in Hg
        as ((_ & Hso1 & _ & _ & Has1 & _) & l & Hse1 & Hf).
      assert (Hf' : Forall (fun i => ping (ip i) = 0
                                     /\ primary_ip dev = Some (ip i)) l).
      { eapply Forall_impl; [exact Hf|]. intros i [Hp ->]. auto. }
      rewrite sessions_logged in Hse1. simpl in Hso1, Has1.
      intros H. inversion H; subst.
      split; [exists l; split; [congruence|exact Hf']|].
      split; exists []; rewrite app_nil_r; congruence.
  - pose proof (GetVersionProperties.init_state dev w) as Hs.
    rewrite Hinit in Hs. simpl in Hs. subst wa.
    intros H. inversion H; subst. rewrite sessions_logged.
    split; [exists []; rewrite app_nil_r; split; [reflexivity|constructor]|].
    split; apply Hnil.
Qed.

(** X16: a session is opened only to the primary address of a selected device,
    and only after that address answered the ping, whether the run ends
    well or raises. *)
Theorem sessions_are_opened_only_after_a_ping_answered devices w :
  exists l,
    sessions (snd (run devices w)) = sessions w ++ l
    /\ Forall (fun i => ping (ip i) = 0
                        /\ Some (ip i) ∈ primary_ip <$> devices) l.
Proof.
  unfold GetVersion.run. revert w.
  induction devices as [|dev devices IH]; intros w; simpl.
  - exists []. rewrite app_nil_r. split; [reflexivity|constructor].
  - unfold bind at 1.
    destruct (onboard dev w) as [[[]|e] w1] eqn:H1;
      apply onboard_any in H1 as ((l1 & Hs1 & Hf1) & _).
    + destruct (IH w1) as (l & Hs & Hf).
      exists (l1 ++ l). split; [rewrite Hs, Hs1, app_assoc; reflexivity|].
      apply Forall_app. split.
      * eapply Forall_impl; [exact Hf1|]. intros i [Hp Hip].
        split; [exact Hp|]. rewrite <- Hip. apply list_elem_of_here.
      * eapply Forall_impl; [exact Hf|]. intros i [Hp Hin].
        split; [exact Hp|]. apply list_elem_of_further. exact Hin.
    + exists l1. split; [exact Hs1|].
      eapply Forall_impl; [exact Hf1|]. intros i [Hp Hip].
      split; [exact Hp|]. rewrite <- Hip. apply list_elem_of_here.
Qed.

Lemma run_grows devices : forall w,
  (exists l, software (snd (run devices w)) = software w ++ l)
  /\ (exists l, associations (snd (run devices w)) = associations w ++ l).
Proof.
  unfold GetVersion.run.
  induction devices as [|dev devices IH]; intros w; simpl.
  - split; exists []; rewrite app_nil_r; reflexivity.
  - unfold bind at 1. unfold bind at 1.
    destruct (onboard dev w) as [[[]|e] w1] eqn:H1;
      apply onboard_any in H1 as (_ & (l1 & Hs1) & (l2 & Ha1)).
    + destruct (IH w1) as ((l3 & Hs) & (l4 & Ha)).
      split; [exists (l1 ++ l3); rewrite Hs, Hs1, app_assoc; reflexivity|].
      exists (l2 ++ l4). rewrite Ha, Ha1, app_assoc. reflexivity.
    + split; [exists l1; exact Hs1|exists l2; exact Ha1].
Qed.

(** X17: the collector only ever adds rows: after a run, ended well or not,
    every software row and every association that was there is still
    there, and so is every one a device of the run has added. *)
Theorem run_only_adds_rows before devices w :
  let w1 := snd (run before w) in
  let w2 := snd (run devices w1) in
  (forall sw, sw ∈ software w1 -> sw ∈ software w2)
  /\ (forall a, a ∈ associations w1 -> a ∈ associations w2)
  /\ (exists l, software w2 = software w ++ l)
  /\ (exists l, associations w2 = associations w ++ l).
Proof.
  cbv zeta.
  destruct (run_grows before w) as ((l1 & Hs1) & (l2 & Ha1)).
  destruct (run_grows devices (snd (run before w))) as ((l3 & Hs2) & (l4 & Ha2)).
  split; [intros sw Hin; rewrite Hs2; apply elem_of_app; auto|].
  split; [intros a Hin; rewrite Ha2; apply elem_of_app; auto|].
  split; [exists (l1 ++ l3); rewrite Hs2, Hs1, app_assoc; reflexivity|].
  exists (l2 ++ l4). rewrite Ha2, Ha1, app_assoc. reflexivity.
Qed.

(** *** Failures of the recording step *)

(** X18: the lookup is by version alone: when two rows or more carry the
    parsed version (as rows of different platforms may), the recording
    step raises [MultipleObjectsReturned] and nothing is written. *)
Theorem record_version_refuses_an_ambiguous_version self v w a b rows :
  parsed_version self = Some v ->
  software_with_version v w = a :: b :: rows ->
  record_version self w = (Raise MultipleObjectsReturned, w).
Proof.
  intros Hv Hrows. unfold GetVersion.record_version, bind.
  rewrite (GetVersionProperties.import_run _ _ _ _ Hv), Hrows. reflexivity.
Qed.

(** X19: nothing is undone: when the "Software on Device" relationship is not
    defined, the recording step raises [DoesNotExist] after the new
    software row has been saved, and the row stays, with no association. *)
Theorem record_version_keeps_the_row_without_the_relationship self v w :
  let row := {| software_id := next_pk w; version := v;
                device_platform := platform (device self) |} in
  parsed_version self = Some v ->
  software_with_version v w = [] ->
  clean_software row = Ok tt ->
  filter (fun r => label r = "Software on Device") (relationships w) = [] ->
  exists w',
    record_version self w = (Raise DoesNotExist, w')
    /\ software w' = software w ++ [row]
    /\ associations w' = associations w.
Proof.
  cbv zeta. intros Hv Hrows Hclean Hrel.
  unfold GetVersion.record_version, bind.
  rewrite (GetVersionProperties.import_run _ _ _ _ Hv), Hrows. cbv zeta.
  rewrite Hclean. rewrite GetVersionProperties.assign_run. simpl.
  rewrite Hrel. simpl. eexists. split; [reflexivity|]. split; reflexivity.
Qed.

(** *** What a run that ends well has recorded *)

Lemma onboard_ok_records dev w w1 :
  onboard dev w = (Ok tt, w1) ->
  exists sw a,
    sw ∈ software w1 /\ a ∈ associations w1
    /\ source_id a = software_id sw
    /\ destination_id a = device_id dev.
Proof.
  unfold GetVersion.onboard. intros H.
  apply bind_ok in H as (task & wa & Hinit & Hexec).
  apply GetVersionProperties.init_ok in Hinit as (Hdev & _ & _ & ->).
  unfold GetVersion.execute in Hexec.
  apply bind_ok in Hexec as (t1 & wb & Hg & Hexec).
  apply bind_ok in Hexec as (t2 & wc & Hp & Hrec).
  change (record_version t2 wc = (Ok tt, w1)) in Hrec.
  apply GetVersionProperties.get_version_ok in Hg as (_ & _ & Hd1 & _).
  apply GetVersionProperties.parse_version_any in Hp as (_ & _ & Hq).
  destruct (Hq t2 eq_refl) as (Hd2 & v & Hv).
  destruct (GetVersionProperties.record_ok _ _ _ _ _ _ Hv Hrec)
    as (sw & rel & Hone & _ & Hthere & _).
  assert (Hsw : sw ∈ software w1).
  { assert (Hin : sw ∈ software_with_version v w1)
      by (rewrite Hone; apply list_elem_of_here).
    unfold software_with_version in Hin.
    apply list_elem_of_filter in Hin as [_ Hin]. exact Hin. }
  unfold associations_of in Hthere.
  destruct (filter _ (associations w1)) as [|a rows] eqn:Hf; [contradiction|].
  assert (Ha : a ∈ filter (fun a => relationship a = relationship_id rel
                                    /\ source_id a = software_id sw
                                    /\ destination_id a = device_id (device t2))
                          (associations w1))
    by (rewrite Hf; apply list_elem_of_here).
  apply list_elem_of_filter in Ha as [(_ & Hsrc & Hdst) Ha].
  exists sw, a. split; [exact Hsw|]. split; [exact Ha|]. split; [exact Hsrc|].
  rewrite Hdst. congruence.
Qed.

(** X20: after a run that ends without an exception every selected device has
    an association to a software row. *)
Theorem run_leaves_every_device_with_its_software devices w w' :
  run devices w = (Ok tt, w') ->
  forall dev, dev ∈ devices ->
    exists sw a,
      sw ∈ software w' /\ a ∈ associations w'
      /\ source_id a = software_id sw
      /\ destination_id a = device_id dev.
Proof.
  unfold GetVersion.run. revert w.
  induction devices as [|d devices IH]; intros w H dev Hin; simpl in H.
  - inversion Hin.
  - apply bind_ok in H as ([] & w1 & H1 & H2).
    apply elem_of_cons in Hin as [->|Hin]; [|eapply IH; eassumption].
    apply onboard_ok_records in H1 as (sw & a & Hsw & Ha & Hsrc & Hdst).
    destruct (run_grows devices w1) as ((l1 & Hs) & (l2 & Has)).
    unfold GetVersion.run in Hs, Has. rewrite H2 in Hs, Has. simpl in Hs, Has.
    exists sw, a. split; [rewrite Hs; apply elem_of_app; auto|].
    split; [rewrite Has; apply elem_of_app; auto|]. auto.
Qed.

End Collector.

(** *** Worked examples in the lab *)

Lemma parse_version_after_get_version_witness :
  let task := {| device := router1; platform_name := "cisco_ios";
                 device_info := {| device_type := "cisco_ios"; ip := "10.0.0.1";
                                   username := "admin"; password := "pw";
                                   secret := "en" |};
                 raw_version := None; parsed_version := None;
                 nautobot_software := None |} in
  let w1 := snd (OnboardVersion_init router1 lab) in
  let got := get_version lab_ping lab_output task w1 in
  exists t1,
    got = (Ok t1, snd got)
    /\ exists lit out,
        patterns !! platform_name task = Some lit
        /\ lab_output (device_info task)
             (show_version_commands !! platform_name task) = Ok out
        /\ is_Some (show_version_commands !! platform_name task)
        /\ t1 = with_raw_version task out
        /\ parse_version t1 (snd got)
           = match re_search lit out with
             | Some g =>
                 (Ok (with_parsed_version t1 (strip_comma g)),
                  journal_add [Logged "info" ("Device software version: "
                                              +:+ strip_comma g)] (snd got))
             | None =>
                 (Raise (Exception
                           ("Could not parse, pattern not found in the input string: "
                            +:+ lit +:+ "(\S+)")), snd got)
             end.
Proof.
  cbv zeta. eexists. split; [vm_compute; reflexivity|].
  apply (parse_version_after_get_version lab_ping lab_output router1 lab)
    with (w1 := snd (OnboardVersion_init router1 lab)).
  - vm_compute. reflexivity.
  - vm_compute. reflexivity.
Defined.

Lemma record_version_ambiguous_witness :
  let other := {| software_id := 1; version := "15.2(4)M3"; device_platform := Some eos |} in
  let mine := {| software_id := 2; version := "15.2(4)M3"; device_platform := Some ios |} in
  let w := insert_software mine (insert_software other lab) in
  record_version accept_software accept_association lab_task w
  = (Raise MultipleObjectsReturned, w).
Proof.
  cbv zeta.
  apply (record_version_refuses_an_ambiguous_version
           accept_software accept_association lab_task "15.2(4)M3" _
           {| software_id := 1; version := "15.2(4)M3"; device_platform := Some eos |}
           {| software_id := 2; version := "15.2(4)M3"; device_platform := Some ios |}
           []).
  - reflexivity.
  - vm_compute. reflexivity.
Defined.

Lemma record_version_without_the_relationship_witness :
  let w := {| secrets := secrets lab; software := []; relationships := [];
              content_types := content_types lab; associations := [];
              next_pk := 100; journal := [] |} in
  let row := {| software_id := 100; version := "15.2(4)M3";
                device_platform := Some ios |} in
  exists w',
    record_version accept_software accept_association lab_task w
    = (Raise DoesNotExist, w')
    /\ software w' = software w ++ [row]
    /\ associations w' = associations w.
Proof.
  cbv zeta.
  apply (record_version_keeps_the_row_without_the_relationship
           accept_software accept_association lab_task "15.2(4)M3"
           {| secrets := secrets lab; software := []; relationships := [];
              content_types := content_types lab; associations := [];
              next_pk := 100; journal := [] |}); reflexivity.
Defined.

Lemma run_leaves_every_device_with_its_software_witness :
  let go := run lab_ping lab_output accept_software accept_association in
  let w' := snd (go [router1] lab) in
  go [router1] lab = (Ok tt, w')
  /\ forall dev, dev ∈ [router1] ->
       exists sw a,
         sw ∈ software w' /\ a ∈ associations w'
         /\ source_id a = software_id sw
         /\ destination_id a = device_id dev.
Proof.
  cbv zeta. split; [vm_compute; reflexivity|].
  apply (run_leaves_every_device_with_its_software
           lab_ping lab_output accept_software accept_association
           [router1] lab).
  vm_compute. reflexivity.
Defined.

Lemma onboard_again_witness :
  let go := onboard lab_ping lab_output accept_software accept_association in
  let w1 := snd (go router1 lab) in
  go router1 lab = (Ok tt, w1)
  /\ exists w2, go router1 w1 = (Ok tt, w2) /\ same_database w1 w2.
Proof.
  cbv zeta. split; [vm_compute; reflexivity|].
  apply (GetVersionProperties.onboard_again
           lab_ping lab_output accept_software accept_association router1 lab).
  vm_compute. reflexivity.
Defined.

End GetVersionMore.
